(** * WellDoc patient-trend dashboard: ingestion, filtering, statistics and
    insight engine.

    Shallow embedding of
      - [src/utils/csvParser.ts]   ([processPatientData], [loadCSVData]),
      - [src/utils/insights.ts]    ([generateInsights]),
      - [src/App.tsx]              ([filteredData], [metrics]),
      - [src/components/DistributionCharts.tsx]
                                   ([createHistogramData], [createBoxPlotData]).

    JavaScript numbers are IEEE-754 binary64 values; they are modelled by
    Rocq's primitive floats, which are binary64 with round-to-nearest-even,
    so that every arithmetic step of the source is evaluated bit for bit. *)

From Stdlib Require Import Floats ZArith String Sorted Permutation.
From stdpp Require Import gmap strings list pretty.

Set Warnings "-inexact-float,-abstract-large-number".
Local Open Scope string_scope.
Local Open Scope list_scope.
Local Open Scope Z_scope.

(** ** JavaScript numbers *)

Module JS.

Abbreviation number := float.

Definition NaN : number := PrimFloat.nan.
Definition Infinity : number := PrimFloat.infinity.

(** [Number(z)] for a mathematical integer: the nearest binary64 value. *)
Definition of_Z (z : Z) : number :=
  SF2Prim (binary_normalize prec emax z 0 false).

(** The number held by an array's [length] or by an index. *)
Definition of_nat (n : nat) : number := of_Z (Z.of_nat n).

(** [Math.floor]: the mathematical floor of the exact value of [x];
    NaN, the infinities and both zeros are returned unchanged. *)
Definition Math_floor (x : number) : number :=
  match Prim2SF x with
  | S754_finite s m e =>
      if 0 <=? e then x
      else
        let d := 2 ^ (- e) in
        let q := Z.pos m / d in
        if s then
          (if Z.pos m mod d =? 0 then of_Z (- q) else of_Z (- (q + 1)))
        else of_Z q
  | _ => x
  end.

(** [Math.ceil x] is [-Math.floor(-x)], signed zeros included. *)
Definition Math_ceil (x : number) : number :=
  (- Math_floor (- x))%float.

Definition Math_sqrt (x : number) : number := PrimFloat.sqrt x.
Definition Math_abs (x : number) : number := PrimFloat.abs x.

(** [Math.pow(x, 2)].  ECMAScript leaves [Math.pow] implementation
    approximated; for the exponent 2 engines compute the product. *)
Definition Math_pow2 (x : number) : number := (x * x)%float.

Definition is_neg_zero (x : number) : bool :=
  match Prim2SF x with S754_zero true => true | _ => false end.
Definition is_pos_zero (x : number) : bool :=
  match Prim2SF x with S754_zero false => true | _ => false end.

(** One step of the [Math.min] loop of ECMAScript (21.3.2.25). *)
Definition min_step (lowest x : number) : number :=
  if PrimFloat.is_nan lowest then lowest
  else if PrimFloat.is_nan x then NaN
  else if is_neg_zero x && is_pos_zero lowest then x
  else if (x <? lowest)%float then x else lowest.

Definition max_step (highest x : number) : number :=
  if PrimFloat.is_nan highest then highest
  else if PrimFloat.is_nan x then NaN
  else if is_pos_zero x && is_neg_zero highest then x
  else if (highest <? x)%float then x else highest.

(** [Math.min(...values)] and [Math.max(...values)]. *)
Definition Math_min (values : list number) : number :=
  fold_left min_step values Infinity.
Definition Math_max (values : list number) : number :=
  fold_left max_step values (- Infinity)%float.

(** [x > y], [x >= y] on numbers: false as soon as one side is NaN. *)
Definition gt (x y : number) : bool := (y <? x)%float.
Definition ge (x y : number) : bool := (y <=? x)%float.
Definition lt (x y : number) : bool := (x <? y)%float.

(** The non-negative integer that a number is, if it is one. *)
Definition integer_of (x : number) : option Z :=
  match Prim2SF x with
  | S754_zero _ => Some 0
  | S754_finite false m e =>
      if 0 <=? e then Some (Z.pos m * 2 ^ e)
      else if Z.pos m mod 2 ^ (- e) =? 0
           then Some (Z.pos m / 2 ^ (- e))
           else None
  | _ => None
  end.

(** The array index denoted by a number used as a property key:
    a non-negative integral value. *)
Definition index_of (x : number) : option nat := Z.to_nat <$> integer_of x.

(** [arr[x]]: [undefined] ([None]) unless [x] is an index in range. *)
Definition get {A} (arr : list A) (x : number) : option A :=
  i ← index_of x; arr !! i.

(** [ToLength], as applied to the [length] of an array-like. *)
Definition length_of (x : number) : Z :=
  match Prim2SF x with
  | S754_finite false m e =>
      Z.min (if 0 <=? e then Z.pos m * 2 ^ e else Z.pos m / 2 ^ (- e))
            (2 ^ 53 - 1)
  | S754_infinity false => 2 ^ 53 - 1
  | _ => 0
  end.
Definition ToLength (x : number) : nat := Z.to_nat (length_of x).

(** A value that may be [undefined], read where a number is expected
    ([d[attribute] as number] followed by arithmetic). *)
Definition as_number (v : option number) : number :=
  match v with Some x => x | None => NaN end.

Section ToFixed.
(** [Number::toString] for a finite number of magnitude at least
    10^21 (exponential notation); the shortest-round-trip digit
    generation of the engine is taken as given. *)
Variable Number_toString : number → string.

Definition pretty_Z (z : Z) : string := pretty (Z.to_N z).

(** [x.toFixed(1)] (ECMAScript 21.1.3.3): the integer [n] nearest to
    ten times the exact value of [|x|], the larger one on a tie. *)
Definition toFixed1 (x : number) : string :=
  match Prim2SF x with
  | S754_nan => "NaN"
  | S754_infinity s => if s then "-Infinity" else "Infinity"
  | S754_zero _ => "0.0"
  | S754_finite s m e =>
      let sign := if s then "-" else "" in
      if (0 <=? e) && (10 ^ 21 <=? Z.pos m * 2 ^ e)
      then sign +:+ Number_toString (Math_abs x)
      else
        let n := if 0 <=? e then 10 * Z.pos m * 2 ^ e
                 else (20 * Z.pos m + 2 ^ (- e)) / (2 * 2 ^ (- e)) in
        sign +:+ pretty_Z (n / 10) +:+ "." +:+ pretty_Z (n mod 10)
  end.
End ToFixed.

End JS.

(** ** Built-in array operations *)

(** [arr.push(x)], on the array held by the caller. *)
Definition push {A} (arr : list A) (x : A) : list A := arr ++ [x].

(** [arr.reduce((acc, x, i) => f acc x i, init)]. *)
Fixpoint reduce_from {A B} (f : B → A → nat → B) (i : nat) (arr : list A)
    (acc : B) : B :=
  match arr with
  | [] => acc
  | x :: arr' => reduce_from f (S i) arr' (f acc x i)
  end.
Definition reduce {A B} (f : B → A → nat → B) (arr : list A) (init : B) : B :=
  reduce_from f 0 arr init.

(** [arr.sort(comparefn)].  ECMAScript requires the sort to be stable and,
    for a consistent comparator, to return the elements in comparator
    order; these two requirements fix the result, which is computed here by
    a stable insertion sort.  [gt a b] stands for [comparefn(a, b) > 0]. *)
Fixpoint sort_insert {A} (gt : A → A → bool) (x : A) (arr : list A) : list A :=
  match arr with
  | [] => [x]
  | y :: arr' => if gt x y then y :: sort_insert gt x arr' else x :: arr
  end.
Definition Array_sort {A} (gt : A → A → bool) (arr : list A) : list A :=
  foldr (sort_insert gt) [] arr.

(** The comparator [(a, b) => a - b] on numbers. *)
Definition by_value (a b : JS.number) : bool := JS.gt (a - b)%float 0%float.

(** ** Data model ([src/types/index.ts]) *)

Inductive DataType := Historical | Predicted.

(** ['Both' | 'Historical' | 'Predicted']. *)
Inductive DataTypeFilter := Both | Only (t : DataType).

Inductive AttributeKey := KStressIndex | KHeartRate | KSystolicBP | KDiastolicBP.

(** The string that the key is in the source. *)
Definition key_name (attribute : AttributeKey) : string :=
  match attribute with
  | KStressIndex => "StressIndex"
  | KHeartRate => "HeartRate"
  | KSystolicBP => "SystolicBP"
  | KDiastolicBP => "DiastolicBP"
  end.

(** A [Date]: its time value is an integral number of milliseconds within
    8.64e15 of the epoch, or NaN ([None], an invalid date). *)
Definition JSDate := option Z.

(** [CombinedData]; the columns of the raw row other than the four
    attributes are carried along by the source and never read. *)
Record CombinedData := {
  datetime : JSDate;
  dataType : DataType;
  StressIndex : option JS.number;
  HeartRate : option JS.number;
  SystolicBP : option JS.number;
  DiastolicBP : option JS.number
}.

(** [d[attribute]]. *)
Definition prop (d : CombinedData) (attribute : AttributeKey) : option JS.number :=
  match attribute with
  | KStressIndex => StressIndex d
  | KHeartRate => HeartRate d
  | KSystolicBP => SystolicBP d
  | KDiastolicBP => DiastolicBP d
  end.

Inductive InsightType := warning | success | info.

Record InsightData := {
  type : InsightType;
  message : string;
  icon : string
}.

Global Instance DataType_eq_dec : EqDecision DataType.
Proof. solve_decision. Defined.
Global Instance InsightType_eq_dec : EqDecision InsightType.
Proof. solve_decision. Defined.

(** [d.dataType === dataTypeFilter] for a filter other than ['Both']. *)
Definition matches (t : DataType) (f : DataTypeFilter) : Prop :=
  f = Both ∨ f = Only t.
Global Instance matches_dec t f : Decision (matches t f).
Proof.
  unfold matches; destruct f as [|t']; [left; by left|].
  destruct (decide (t' = t)) as [->|Hne]; [left; by right|].
  right; intros [H|H]; [discriminate | congruence].
Defined.

(** [d[attribute] !== undefined && d[attribute] !== null]. *)
Definition has (attribute : AttributeKey) (d : CombinedData) : Prop :=
  is_Some (prop d attribute).

(** [rows.reduce((sum, d) => sum + (d[attribute] as number), 0) / rows.length]. *)
Definition mean_of (attribute : AttributeKey) (rows : list CombinedData) : JS.number :=
  (fold_left (λ sum d, sum + JS.as_number (prop d attribute)) rows 0
   / JS.of_nat (length rows))%float.

(** [((predictedMean - historicalMean) / historicalMean) * 100]. *)
Definition change_percent (historicalMean predictedMean : JS.number) : JS.number :=
  ((predictedMean - historicalMean) / historicalMean * 100)%float.

(** ** Insight generator ([src/utils/insights.ts]) *)

Section Insights.
Variable Number_toString : JS.number → string.
Abbreviation toFixed1 := (JS.toFixed1 Number_toString).

(** The comparison of the two sources, once [validData] is split. *)
Definition compare_insight (historicalData predictedData : list CombinedData)
    (attribute : AttributeKey) (insights : list InsightData) : list InsightData :=
  if (0 <? length historicalData)%nat && (0 <? length predictedData)%nat then
    let historicalMean := mean_of attribute historicalData in
    let predictedMean := mean_of attribute predictedData in
    let changePercent := change_percent historicalMean predictedMean in
    if JS.gt changePercent 10 then
      push insights
        {| type := warning; icon := "⚠️";
           message := key_name attribute +:+ " is projected to increase by "
             +:+ toFixed1 changePercent
             +:+ "%. Preventive measures recommended." |}
    else if JS.lt changePercent (-10) then
      push insights
        {| type := success; icon := "✅";
           message := key_name attribute
             +:+ " shows signs of improvement with a projected decrease of "
             +:+ toFixed1 (JS.Math_abs changePercent) +:+ "%." |}
    else
      push insights
        {| type := info; icon := "ℹ️";
           message := key_name attribute
             +:+ " remains stable with minor fluctuations ("
             +:+ (if JS.gt changePercent 0 then "+" else "")
             +:+ toFixed1 changePercent +:+ "%)." |}
  else insights.

(** Least-squares slope of the values against their positions. *)
Definition slope_of (values timePoints : list JS.number) : JS.number :=
  let n := JS.of_nat (length values) in
  let sumX := fold_left (λ a b, a + b)%float timePoints 0%float in
  let sumY := fold_left (λ a b, a + b)%float values 0%float in
  let sumXY := reduce (λ sum x i, sum + x * JS.as_number (values !! i))%float
                 timePoints 0%float in
  let sumXX := fold_left (λ sum x, sum + x * x)%float timePoints 0%float in
  ((n * sumXY - sumX * sumY) / (n * sumXX - sumX * sumX))%float.

Definition trend_insight (values timePoints : list JS.number)
    (attribute : AttributeKey) (insights : list InsightData) : list InsightData :=
  let slope := slope_of values timePoints in
  if JS.gt (JS.Math_abs slope) 0.01 then
    if JS.gt slope 0 then
      push insights
        {| type := info; icon := "📈";
           message := "Trend Analysis: " +:+ key_name attribute
             +:+ " shows an upward trend over the selected period." |}
    else
      push insights
        {| type := info; icon := "📉";
           message := "Trend Analysis: " +:+ key_name attribute
             +:+ " shows a downward trend over the selected period." |}
  else
    push insights
      {| type := info; icon := "➡️";
         message := "Trend Analysis: " +:+ key_name attribute
           +:+ " shows a stable trend over the selected period." |}.

Definition coefficient_of_variation (values : list JS.number) : JS.number :=
  let mean := (fold_left (λ a b, a + b) values 0
               / JS.of_nat (length values))%float in
  let variance := (fold_left (λ sum val, sum + JS.Math_pow2 (val - mean)) values 0
                   / JS.of_nat (length values))%float in
  let stdDev := JS.Math_sqrt variance in
  (stdDev / mean * 100)%float.

Definition variability_insight (values : list JS.number) (attribute : AttributeKey)
    (insights : list InsightData) : list InsightData :=
  let coefficientOfVariation := coefficient_of_variation values in
  if JS.gt coefficientOfVariation 20 then
    push insights
      {| type := warning; icon := "📊";
         message := "Variability: High variability detected in "
           +:+ key_name attribute +:+ " (CV: "
           +:+ toFixed1 coefficientOfVariation
           +:+ "%). Consider monitoring more closely." |}
  else if JS.lt coefficientOfVariation 10 then
    push insights
      {| type := success; icon := "📊";
         message := "Variability: Low variability in "
           +:+ key_name attribute +:+ " (CV: "
           +:+ toFixed1 coefficientOfVariation
           +:+ "%). Values are relatively consistent." |}
  else
    push insights
      {| type := info; icon := "📊";
         message := "Variability: Moderate variability in "
           +:+ key_name attribute +:+ " (CV: "
           +:+ toFixed1 coefficientOfVariation +:+ "%)." |}.

(** The predicate [v => v < lowerBound || v > upperBound]; [values] is
    the array after [values.sort((a, b) => a - b)] has reordered it. *)
Definition is_outlier (values : list JS.number) (v : JS.number) : bool :=
  let q1 := JS.as_number
    (JS.get values (JS.Math_floor (JS.of_nat (length values) * 0.25)%float)) in
  let q3 := JS.as_number
    (JS.get values (JS.Math_floor (JS.of_nat (length values) * 0.75)%float)) in
  let iqr := (q3 - q1)%float in
  let lowerBound := (q1 - 1.5 * iqr)%float in
  let upperBound := (q3 + 1.5 * iqr)%float in
  JS.lt v lowerBound || JS.gt v upperBound.

Definition outlier_insight (outliers : list JS.number) (attribute : AttributeKey)
    (insights : list InsightData) : list InsightData :=
  if (0 <? length outliers)%nat then
    push insights
      {| type := warning; icon := "🎯";
         message := "Outliers: " +:+ pretty (length outliers)
           +:+ " outlier value(s) detected in " +:+ key_name attribute
           +:+ ". Review for data quality or significant events." |}
  else insights.

Definition generateInsights (data : list CombinedData) (attribute : AttributeKey)
    (dataTypeFilter : DataTypeFilter) : list InsightData :=
  let insights := [] in
  if (length data =? 0)%nat then insights else
  let validData := filter (has attribute) data in
  if (length validData =? 0)%nat then insights else
  let insights :=
    match dataTypeFilter with
    | Both =>
        let historicalData := filter (λ d, dataType d = Historical) validData in
        let predictedData := filter (λ d, dataType d = Predicted) validData in
        compare_insight historicalData predictedData attribute insights
    | Only _ => insights
    end in
  let insights :=
    if (1 <? length validData)%nat then
      let values := map (λ d, JS.as_number (prop d attribute)) validData in
      let timePoints := imap (λ index _, JS.of_nat index) validData in
      trend_insight values timePoints attribute insights
    else insights in
  let values := map (λ d, JS.as_number (prop d attribute)) validData in
  let insights := variability_insight values attribute insights in
  let values := Array_sort by_value values in
  let outliers := List.filter (is_outlier values) values in
  outlier_insight outliers attribute insights.

End Insights.

(** ** Dates *)

(** [d.getTime()]. *)
Definition getTime (d : JSDate) : JS.number :=
  match d with Some t => JS.of_Z t | None => JS.NaN end.

(** [a <= b] on two [Date] objects: the comparison of their time values,
    false when either is NaN. *)
Definition date_le (a b : JSDate) : Prop :=
  match a, b with Some x, Some y => x ≤ y | _, _ => False end.
Global Instance date_le_dec a b : Decision (date_le a b).
Proof. destruct a, b; simpl; apply _. Defined.

(** ** Working set and aggregate metrics ([src/App.tsx]) *)

Module App.

Record DateRange := { start : JSDate; end_ : JSDate }.

Definition dateInRange (dateRange : DateRange) (d : CombinedData) : Prop :=
  date_le (start dateRange) (datetime d) ∧ date_le (datetime d) (end_ dateRange).

(** The [filteredData] memo: the working set. *)
Definition filteredData (data : list CombinedData) (dateRange : DateRange)
    (selectedAttribute : AttributeKey) (dataTypeFilter : DataTypeFilter)
    : list CombinedData :=
  filter (λ d, dateInRange dateRange d ∧ has selectedAttribute d
               ∧ matches (dataType d) dataTypeFilter) data.

Record Metrics := {
  average : JS.number;
  max : JS.number;
  min : JS.number;
  totalRecords : nat;
  historicalRecords : nat;
  predictedRecords : nat;
  dateSpan : JS.number;
  changePercent : option JS.number
}.

(** The object returned for a non-empty working set, from the arrays
    derived from it. *)
Definition summary (filteredData : list CombinedData) (values : list JS.number)
    (historicalData predictedData : list CombinedData)
    (selectedAttribute : AttributeKey) (dateRange : DateRange) : Metrics :=
  let changePercent :=
    if (0 <? length historicalData)%nat && (0 <? length predictedData)%nat then
      let historicalMean := mean_of selectedAttribute historicalData in
      let predictedMean := mean_of selectedAttribute predictedData in
      Some (change_percent historicalMean predictedMean)
    else None in
  let dateSpan :=
    JS.Math_ceil ((getTime (end_ dateRange) - getTime (start dateRange))
                  / JS.of_Z (1000 * 60 * 60 * 24))%float in
  {| average := (fold_left (λ a b, a + b) values 0
                 / JS.of_nat (length values))%float;
     max := JS.Math_max values;
     min := JS.Math_min values;
     totalRecords := length filteredData;
     historicalRecords := length historicalData;
     predictedRecords := length predictedData;
     dateSpan := dateSpan;
     changePercent := changePercent |}.

(** The [metrics] memo. *)
Definition metrics (filteredData : list CombinedData)
    (selectedAttribute : AttributeKey) (dateRange : DateRange) : Metrics :=
  if (length filteredData =? 0)%nat then
    {| average := 0; max := 0; min := 0; totalRecords := 0;
       historicalRecords := 0; predictedRecords := 0; dateSpan := 0;
       changePercent := None |}
  else
    let values := map (λ d, JS.as_number (prop d selectedAttribute)) filteredData in
    let historicalData := filter (λ d, dataType d = Historical) filteredData in
    let predictedData := filter (λ d, dataType d = Predicted) filteredData in
    summary filteredData values historicalData predictedData
      selectedAttribute dateRange.

End App.

(** ** Distribution charts ([src/components/DistributionCharts.tsx]) *)

Module DistributionCharts.

(** The component's own [filteredData]. *)
Definition filteredData (data : list CombinedData) (attribute : AttributeKey)
    (dataTypeFilter : DataTypeFilter) : list CombinedData :=
  filter (has attribute)
    (filter (λ d, matches (dataType d) dataTypeFilter) data).

(** A histogram bin.  The two per-source counters are the properties
    [Historical] and [Predicted] of the source object; counters are
    incremented from 0 one by one and are kept as naturals. *)
Record Bin := {
  range : string;
  midpoint : JS.number;
  cHistorical : nat;
  cPredicted : nat;
  total : nat
}.

(** [bin[dataType]++; bin.total++]. *)
Definition count_in (t : DataType) (b : Bin) : Bin :=
  match t with
  | Historical =>
      {| range := range b; midpoint := midpoint b;
         cHistorical := S (cHistorical b); cPredicted := cPredicted b;
         total := S (total b) |}
  | Predicted =>
      {| range := range b; midpoint := midpoint b;
         cHistorical := cHistorical b; cPredicted := S (cPredicted b);
         total := S (total b) |}
  end.

Section Histogram.
Variable Number_toString : JS.number → string.
Abbreviation toFixed1 := (JS.toFixed1 Number_toString).

(** The element function of [Array.from({ length: binCount }, ...)]. *)
Definition empty_bin (min binWidth : JS.number) (i : nat) : Bin :=
  {| range := toFixed1 (min + JS.of_nat i * binWidth)%float +:+ "-"
                +:+ toFixed1 (min + (JS.of_nat i + 1) * binWidth)%float;
     midpoint := (min + (JS.of_nat i + 0.5) * binWidth)%float;
     cHistorical := 0; cPredicted := 0; total := 0 |}.

(** The index computed for one value. *)
Definition bin_index (min binWidth binCount value : JS.number) : JS.number :=
  JS.Math_min [JS.Math_floor ((value - min) / binWidth)%float;
               (binCount - 1)%float].

(** The body of the [forEach] callback, acting on [bins].  [Math.floor]
    and [binCount - 1] are integral, so past the guard [binIndex] is an
    index below [bins.length], [bins[binIndex]] is a bin and the [None]
    branch is not taken. *)
Definition assign (attribute : AttributeKey) (min binWidth binCount : JS.number)
    (bins : list Bin) (d : CombinedData) : list Bin :=
  let value := JS.as_number (prop d attribute) in
  let binIndex := bin_index min binWidth binCount value in
  if JS.ge binIndex 0 && JS.lt binIndex (JS.of_nat (length bins)) then
    match JS.index_of binIndex with
    | Some i => alter (count_in (dataType d)) i bins
    | None => bins
    end
  else bins.

Definition bin_count (values : list JS.number) : JS.number :=
  JS.Math_min [20%float; JS.Math_ceil (JS.Math_sqrt (JS.of_nat (length values)))].

(** The bins of a non-empty [values], filled from [filteredData]. *)
Definition fill_bins (values : list JS.number) (filteredData : list CombinedData)
    (attribute : AttributeKey) : list Bin :=
  let min := JS.Math_min values in
  let max := JS.Math_max values in
  let binCount := bin_count values in
  let binWidth := ((max - min) / binCount)%float in
  let bins := map (empty_bin min binWidth) (seq 0 (JS.ToLength binCount)) in
  fold_left (assign attribute min binWidth binCount) filteredData bins.

Definition createHistogramData (filteredData : list CombinedData)
    (attribute : AttributeKey) : list Bin :=
  let values := map (λ d, JS.as_number (prop d attribute)) filteredData in
  if (length values =? 0)%nat then [] else
  fill_bins values filteredData attribute.
End Histogram.

Record Quartiles := {
  min : option JS.number;
  q1 : option JS.number;
  median : option JS.number;
  q3 : option JS.number;
  max : option JS.number;
  mean : JS.number
}.

Definition getQuartiles (values : list JS.number) : option Quartiles :=
  if (length values =? 0)%nat then None else
  let q1Index := JS.Math_floor (JS.of_nat (length values) * 0.25)%float in
  let q2Index := JS.Math_floor (JS.of_nat (length values) * 0.5)%float in
  let q3Index := JS.Math_floor (JS.of_nat (length values) * 0.75)%float in
  Some {| min := JS.get values 0%float;
          q1 := JS.get values q1Index;
          median := JS.get values q2Index;
          q3 := JS.get values q3Index;
          max := JS.get values (JS.of_nat (length values) - 1)%float;
          mean := (fold_left (λ a b, a + b) values 0
                   / JS.of_nat (length values))%float |}.

(** The sorted values of one source. *)
Definition sorted_values (filteredData : list CombinedData)
    (attribute : AttributeKey) (t : DataType) : list JS.number :=
  Array_sort by_value
    (map (λ d, JS.as_number (prop d attribute))
       (filter (λ d, dataType d = t) filteredData)).

(** One entry [{ name, ...stats }] per source that is selected and has
    values. *)
Definition box_entries (historicalValues predictedValues : list JS.number)
    (dataTypeFilter : DataTypeFilter) : list (DataType * Quartiles) :=
  let result := [] in
  let result :=
    if decide (matches Historical dataTypeFilter) then
      match getQuartiles historicalValues with
      | Some histStats => push result (Historical, histStats)
      | None => result
      end
    else result in
  let result :=
    if decide (matches Predicted dataTypeFilter) then
      match getQuartiles predictedValues with
      | Some predStats => push result (Predicted, predStats)
      | None => result
      end
    else result in
  result.

Definition createBoxPlotData (filteredData : list CombinedData)
    (attribute : AttributeKey) (dataTypeFilter : DataTypeFilter)
    : list (DataType * Quartiles) :=
  let historicalValues := sorted_values filteredData attribute Historical in
  let predictedValues := sorted_values filteredData attribute Predicted in
  box_entries historicalValues predictedValues dataTypeFilter.

End DistributionCharts.

(** ** State-passing computations *)

(** Code that reads the clock, or that allocates and updates arrays,
    threads a state. *)
Definition State (St A : Type) : Type := St → A * St.

Global Instance State_ret {St} : MRet (State St) := λ A a s, (a, s).
Global Instance State_bind {St} : MBind (State St) :=
  λ A B k m s, let '(a, s') := m s in k a s'.

(** [arr.map((x, index) => f x index)] for a callback that has effects. *)
Fixpoint mapM_from {St A B} (f : A → nat → State St B) (index : nat)
    (arr : list A) : State St (list B) :=
  match arr with
  | [] => mret []
  | x :: arr' =>
      y ← f x index;
      ys ← mapM_from f (S index) arr';
      mret (y :: ys)
  end.

(** ** Record normalizer ([src/utils/csvParser.ts]) *)

(** A cell of a parsed row, as PapaParse yields it with [dynamicTyping];
    a column that the row does not have reads as [undefined]. *)
Inductive scalar :=
  | SUndefined
  | SNull
  | SBool (b : bool)
  | SNumber (x : JS.number)
  | SString (s : string).

(** [row.name]. *)
Definition column (row : gmap string scalar) (name : string) : scalar :=
  default SUndefined (row !! name).

(** The condition of [if (v)]. *)
Definition truthy (v : scalar) : bool :=
  match v with
  | SUndefined | SNull => false
  | SBool b => b
  | SNumber x => negb (PrimFloat.is_zero x || PrimFloat.is_nan x)
  | SString s => negb (String.eqb s "")
  end.

(** [typeof v === 'number' ? v : undefined]. *)
Definition numeric (v : scalar) : option JS.number :=
  match v with SNumber x => Some x | _ => None end.

(** [TimeClip]: time values beyond 8.64e15 ms are NaN. *)
Definition TimeClip (t : Z) : JSDate :=
  if Z.abs t <=? 8640000000000000 then Some t else None.

(** [ToIntegerOrInfinity] of a finite number: truncation towards zero. *)
Definition truncate (x : JS.number) : option Z :=
  match Prim2SF x with
  | S754_zero _ => Some 0
  | S754_finite s m e =>
      let a := if 0 <=? e then Z.pos m * 2 ^ e else Z.pos m / 2 ^ (- e) in
      Some (if s then - a else a)
  | _ => None
  end.

Section Normalizer.
(** [Date.parse] is implementation-defined outside the ISO format: the
    time value it returns for a string, [None] for NaN. *)
Variable Date_parse : string → option Z.
(** The successive readings of the clock, in milliseconds. *)
Variable now_at : nat → Z.

(** The state counts the readings taken so far. *)
Definition Date_now : State nat Z := λ k, (now_at k, S k).

(** [new Date(v)]. *)
Definition new_Date (v : scalar) : JSDate :=
  match v with
  | SString s => t ← Date_parse s; TimeClip t
  | SNumber x => t ← truncate x; TimeClip t
  | SBool b => Some (if b then 1 else 0)
  | SNull => Some 0
  | SUndefined => None
  end.

(** [new Date(baseDate.getTime() + index * 60 * 60 * 1000)], with
    [baseDate] 180 days before now for historical rows and now for
    predicted ones.  Time values are integers below 2^53, on which the
    arithmetic of numbers is exact. *)
Definition synthetic (dataType : DataType) (index : nat) : State nat JSDate :=
  now ← Date_now;
  let baseDate :=
    match dataType with
    | Historical => TimeClip (now - 180 * 24 * 60 * 60 * 1000)
    | Predicted => Some now
    end in
  mret (t ← baseDate; TimeClip (t + Z.of_nat index * 60 * 60 * 1000)).

(** The callback of [rawData.map]. *)
Definition normalize (dataType : DataType) (row : gmap string scalar)
    (index : nat) : State nat CombinedData :=
  datetime ←
    (if truthy (column row "datetime") then mret (new_Date (column row "datetime"))
     else if truthy (column row "date") then mret (new_Date (column row "date"))
     else if truthy (column row "timestamp") then mret (new_Date (column row "timestamp"))
     else synthetic dataType index);
  datetime ←
    (match datetime with
     | None => synthetic dataType index
     | Some _ => mret datetime
     end);
  mret {| datetime := datetime;
          dataType := dataType;
          StressIndex := numeric (column row "StressIndex");
          HeartRate := numeric (column row "HeartRate");
          SystolicBP := numeric (column row "SystolicBP");
          DiastolicBP := numeric (column row "DiastolicBP") |}.

Definition processPatientData (rawData : list (gmap string scalar))
    (dataType : DataType) : State nat (list CombinedData) :=
  mapM_from (normalize dataType) 0 rawData.

(** The comparator [(a, b) => a.datetime.getTime() - b.datetime.getTime()]
    is positive when [a] is later than [b].  The difference of two valid
    time values is below 2^54 in magnitude, where rounding keeps its
    sign; with an invalid date it is NaN, which is not positive. *)
Definition by_time (a b : CombinedData) : bool :=
  match datetime a, datetime b with
  | Some x, Some y => 0 <? x - y
  | _, _ => false
  end.

(** [loadCSVData] once both files are fetched and parsed. *)
Definition loadCSVData (historicalRaw predictedRaw : list (gmap string scalar))
    : State nat (list CombinedData) :=
  historicalData ← processPatientData historicalRaw Historical;
  predictedData ← processPatientData predictedRaw Predicted;
  mret (Array_sort by_time (historicalData ++ predictedData)).

End Normalizer.

(** ** Arrays as shared objects *)

(** In the source an array is an object reached through references, and
    [sort] reorders the array it is called on.  To state which arrays a
    call may change, the arrays are put in a store: [filter] and [map]
    allocate a new array, [sort] overwrites the one it is given. *)
Module Mem.

Definition loc := positive.

Inductive array :=
  | Records (l : list CombinedData)
  | Numbers (l : list JS.number).

Abbreviation heap := (gmap loc array).

Definition records_of (a : option array) : list CombinedData :=
  match a with Some (Records l) => l | _ => [] end.
Definition numbers_of (a : option array) : list JS.number :=
  match a with Some (Numbers l) => l | _ => [] end.

Definition alloc (a : array) : State heap loc :=
  λ h, let ℓ := fresh (dom h) in (ℓ, <[ℓ := a]> h).
Definition read_records (arr : loc) : State heap (list CombinedData) :=
  λ h, (records_of (h !! arr), h).
Definition read_numbers (arr : loc) : State heap (list JS.number) :=
  λ h, (numbers_of (h !! arr), h).
Definition write (arr : loc) (a : array) : State heap () :=
  λ h, ((), <[arr := a]> h).

(** [arr.filter(d => P d)]. *)
Definition Array_filter (P : CombinedData → Prop) `{!∀ d, Decision (P d)}
    (arr : loc) : State heap loc :=
  l ← read_records arr; alloc (Records (filter P l)).

(** [arr.map(d => f d)] and [arr.map((d, index) => f index d)]. *)
Definition Array_map (f : CombinedData → JS.number) (arr : loc) : State heap loc :=
  l ← read_records arr; alloc (Numbers (map f l)).
Definition Array_imap (f : nat → CombinedData → JS.number) (arr : loc)
    : State heap loc :=
  l ← read_records arr; alloc (Numbers (imap f l)).

(** [arr.filter(v => p v)] on numbers. *)
Definition Array_filter_numbers (p : JS.number → bool) (arr : loc)
    : State heap loc :=
  l ← read_numbers arr; alloc (Numbers (List.filter p l)).

(** [arr.sort(comparefn)]: reorders [arr] itself and returns it. *)
Definition Array_sort_in_place (gt : JS.number → JS.number → bool) (arr : loc)
    : State heap loc :=
  l ← read_numbers arr;
  _ ← write arr (Numbers (Array_sort gt l));
  mret arr.

End Mem.

(** The functions of the source over the store; their arithmetic is that
    of the definitions above, applied to the contents read. *)
Module Shared.
Import Mem.

Definition filteredData (data : loc) (dateRange : App.DateRange)
    (selectedAttribute : AttributeKey) (dataTypeFilter : DataTypeFilter)
    : State heap loc :=
  Array_filter (λ d, App.dateInRange dateRange d ∧ has selectedAttribute d
                     ∧ matches (dataType d) dataTypeFilter) data.

Definition metrics (filteredData : loc) (selectedAttribute : AttributeKey)
    (dateRange : App.DateRange) : State heap App.Metrics :=
  fd ← read_records filteredData;
  if (length fd =? 0)%nat then
    mret {| App.average := 0; App.max := 0; App.min := 0;
            App.totalRecords := 0; App.historicalRecords := 0;
            App.predictedRecords := 0; App.dateSpan := 0;
            App.changePercent := None |}
  else
    values ← Array_map (λ d, JS.as_number (prop d selectedAttribute)) filteredData;
    historicalData ← Array_filter (λ d, dataType d = Historical) filteredData;
    predictedData ← Array_filter (λ d, dataType d = Predicted) filteredData;
    hd ← read_records historicalData;
    pd ← read_records predictedData;
    vs ← read_numbers values;
    fd ← read_records filteredData;
    mret (App.summary fd vs hd pd selectedAttribute dateRange).

Section WithFormat.
Variable Number_toString : JS.number → string.

Definition generateInsights (data : loc) (attribute : AttributeKey)
    (dataTypeFilter : DataTypeFilter) : State heap (list InsightData) :=
  let insights := [] in
  d ← read_records data;
  if (length d =? 0)%nat then mret insights else
  validData ← Array_filter (has attribute) data;
  vd ← read_records validData;
  if (length vd =? 0)%nat then mret insights else
  insights ←
    match dataTypeFilter with
    | Both =>
        historicalData ← Array_filter (λ d, dataType d = Historical) validData;
        predictedData ← Array_filter (λ d, dataType d = Predicted) validData;
        hd ← read_records historicalData;
        pd ← read_records predictedData;
        mret (compare_insight Number_toString hd pd attribute insights)
    | Only _ => mret insights
    end;
  vd ← read_records validData;
  insights ←
    (if (1 <? length vd)%nat then
       values ← Array_map (λ d, JS.as_number (prop d attribute)) validData;
       timePoints ← Array_imap (λ index _, JS.of_nat index) validData;
       vs ← read_numbers values;
       ts ← read_numbers timePoints;
       mret (trend_insight vs ts attribute insights)
     else mret insights);
  values ← Array_map (λ d, JS.as_number (prop d attribute)) validData;
  vs ← read_numbers values;
  let insights := variability_insight Number_toString vs attribute insights in
  values ← Array_sort_in_place by_value values;
  sorted ← read_numbers values;
  outliers ← Array_filter_numbers (is_outlier sorted) values;
  os ← read_numbers outliers;
  mret (outlier_insight os attribute insights).

Definition createHistogramData (filteredData : loc) (attribute : AttributeKey)
    : State heap (list DistributionCharts.Bin) :=
  values ← Array_map (λ d, JS.as_number (prop d attribute)) filteredData;
  vs ← read_numbers values;
  if (length vs =? 0)%nat then mret [] else
  fd ← read_records filteredData;
  mret (DistributionCharts.fill_bins Number_toString vs fd attribute).

Definition sorted_values (filteredData : loc) (attribute : AttributeKey)
    (t : DataType) : State heap loc :=
  selected ← Array_filter (λ d, dataType d = t) filteredData;
  values ← Array_map (λ d, JS.as_number (prop d attribute)) selected;
  Array_sort_in_place by_value values.

Definition createBoxPlotData (filteredData : loc) (attribute : AttributeKey)
    (dataTypeFilter : DataTypeFilter)
    : State heap (list (DataType * DistributionCharts.Quartiles)) :=
  historicalValues ← sorted_values filteredData attribute Historical;
  predictedValues ← sorted_values filteredData attribute Predicted;
  hv ← read_numbers historicalValues;
  pv ← read_numbers predictedValues;
  mret (DistributionCharts.box_entries hv pv dataTypeFilter).

(** The component: its own filtering, then the two charts. *)
Definition DistributionCharts (data : loc) (attribute : AttributeKey)
    (dataTypeFilter : DataTypeFilter)
    : State heap (list DistributionCharts.Bin
                  * list (DataType * DistributionCharts.Quartiles)) :=
  selected ← Array_filter (λ d, matches (dataType d) dataTypeFilter) data;
  filteredData ← Array_filter (has attribute) selected;
  histogramData ← createHistogramData filteredData attribute;
  boxPlotData ← createBoxPlotData filteredData attribute dataTypeFilter;
  mret (histogramData, boxPlotData).
End WithFormat.

End Shared.

(** * Vocabulary of the properties *)

(** ** Insight rules and their segments *)

(** A rule leaves the insights pushed before it in place and adds at
    most one. *)
Definition appends (rule : list InsightData → list InsightData) : Prop :=
  ∀ insights, rule insights = insights ++ rule [] ∧ (length (rule []) ≤ 1)%nat.

Section Segments.
Variable Number_toString : JS.number → string.

(** The segments that the four rules contribute, in source order. *)
Definition delta_segment (validData : list CombinedData) (attribute : AttributeKey)
    (dataTypeFilter : DataTypeFilter) : list InsightData :=
  match dataTypeFilter with
  | Both =>
      compare_insight Number_toString
        (filter (λ d, dataType d = Historical) validData)
        (filter (λ d, dataType d = Predicted) validData) attribute []
  | Only _ => []
  end.

Definition trend_segment (validData : list CombinedData) (attribute : AttributeKey)
    : list InsightData :=
  if (1 <? length validData)%nat then
    trend_insight (map (λ d, JS.as_number (prop d attribute)) validData)
      (imap (λ index _, JS.of_nat index) validData) attribute []
  else [].

Definition variability_segment (validData : list CombinedData)
    (attribute : AttributeKey) : list InsightData :=
  variability_insight Number_toString
    (map (λ d, JS.as_number (prop d attribute)) validData) attribute [].

Definition outlier_segment (validData : list CombinedData)
    (attribute : AttributeKey) : list InsightData :=
  let values := Array_sort by_value
                  (map (λ d, JS.as_number (prop d attribute)) validData) in
  outlier_insight (List.filter (is_outlier values) values) attribute [].
End Segments.

(** [needle] occurs in [hay]. *)
Fixpoint contains (needle hay : string) : bool :=
  String.prefix needle hay
  || match hay with
     | EmptyString => false
     | String _ hay' => contains needle hay'
     end.

(** The insights emitted by the variability rule are labelled as such. *)
Definition is_variability (i : InsightData) : bool :=
  String.prefix "Variability:" (message i).

(** ** Integer ranks and counts *)

(** The least integer whose square is at least [n]. *)
Definition ceil_sqrt (n : Z) : Z :=
  let r := Z.sqrt n in if r * r =? n then r else r + 1.

(** The integers [z], [z + 1], ... , [z + k - 1]. *)
Fixpoint upto (k : nat) (z : Z) : list Z :=
  match k with
  | O => []
  | S k' => z :: upto k' (z + 1)
  end.

(** For [n] values, the number of bins computed on numbers is
    [min(20, ceil_sqrt n)]. *)
Definition bin_count_agrees (n : Z) : bool :=
  JS.length_of (JS.Math_min [20%float; JS.Math_ceil (JS.Math_sqrt (JS.of_Z n))])
  =? Z.min 20 (ceil_sqrt n).

Definition is_integer (x : JS.number) (z : Z) : bool :=
  match JS.integer_of x with Some y => y =? z | None => false end.

(** For [n] values, the ranks computed on numbers are [n / 4], [n / 2],
    [3 n / 4] and [n - 1]. *)
Definition ranks_agree (n : Z) : bool :=
  is_integer (JS.Math_floor (JS.of_Z n * 0.25)%float) (n / 4)
  && is_integer (JS.Math_floor (JS.of_Z n * 0.5)%float) (n / 2)
  && is_integer (JS.Math_floor (JS.of_Z n * 0.75)%float) (3 * n / 4)
  && is_integer (JS.of_Z n - 1)%float (n - 1).

(** ** Timestamps *)

(** The cell that the normalizer reads the timestamp from: the first of
    [datetime], [date], [timestamp] that is truthy. *)
Definition timestamp_cell (row : gmap string scalar) : option scalar :=
  if truthy (column row "datetime") then Some (column row "datetime")
  else if truthy (column row "date") then Some (column row "date")
  else if truthy (column row "timestamp") then Some (column row "timestamp")
  else None.

(** 180 days before now for historical rows, now for predicted ones. *)
Definition base_instant (dataType : DataType) (now : Z) : Z :=
  match dataType with
  | Historical => now - 180 * 24 * 60 * 60 * 1000
  | Predicted => now
  end.

(** Every reading of the clock is such that the base instants and the
    instants up to [rows] hours later are time values of a [Date]. *)
Definition clock_in_range (now_at : nat → Z) (rows : nat) : Prop :=
  ∀ k, 180 * 24 * 60 * 60 * 1000 - 8640000000000000 ≤ now_at k
       ∧ now_at k + Z.of_nat rows * 60 * 60 * 1000 ≤ 8640000000000000.

(** [a] is not later than [b]. *)
Definition time_le (a b : CombinedData) : Prop :=
  date_le (datetime a) (datetime b).

(** ** Runs over the store *)

(** [m], run in store [h], establishes [Q] of its result and final store. *)
Definition wp {A} (m : State Mem.heap A) (h : Mem.heap)
    (Q : A → Mem.heap → Prop) : Prop :=
  Q (m h).1 (m h).2.

(** [m], run in [h], returns [r] and leaves every array of [h] in place
    with its contents. *)
Definition returns {A} (m : State Mem.heap A) (h : Mem.heap) (r : A) : Prop :=
  wp m h (λ a h', a = r ∧ h ⊆ h').

(** ** Sample inputs *)

Definition rec (t : DataType) (v : JS.number) : CombinedData :=
  {| datetime := Some 0; dataType := t; StressIndex := Some v;
     HeartRate := None; SystolicBP := None; DiastolicBP := None |}.
Definition scenario := [rec Historical 40; rec Historical 50; rec Historical 60;
  rec Predicted 70; rec Predicted 80; rec Predicted 90]%float.

Definition flat : list CombinedData :=
  [rec Historical 10; rec Historical 10; rec Predicted 10; rec Historical 10]%float.

Definition parse_iso (s : string) : option Z :=
  if String.eqb s "2024-01-01" then Some 1704067200000 else None.
Definition sample_rows : list (gmap string scalar) :=
  [ {[ "datetime" := SString "2024-01-01"; "StressIndex" := SNumber 42 ]};
    {[ "date" := SString "not a date"; "StressIndex" := SString "n/a" ]};
    {[ "HeartRate" := SNumber 70 ]} ].
Definition sample_clock (k : nat) : Z :=
  1800000000000 + Z.min (Z.of_nat k) 86400000.

Definition sample_store : Mem.heap := {[ 1%positive := Mem.Records scenario ]}.

(** * Properties *)

(** ** The number model on a few values *)

Example floor_of_negative_half : JS.Math_floor (-0.5)%float = (-1)%float.
Proof. reflexivity. Qed.

Example ceil_of_sqrt_5 : JS.Math_ceil (JS.Math_sqrt (JS.of_nat 5)) = 3%float.
Proof. reflexivity. Qed.

Example min_with_NaN : JS.Math_min [3; JS.NaN; 2]%float = JS.NaN.
Proof. reflexivity. Qed.

Example index_of_NaN : JS.index_of JS.NaN = None.
Proof. reflexivity. Qed.

Example toFixed_rounds_exact_value :
  JS.toFixed1 (λ _, "") 1.45%float = "1.4"
  ∧ JS.toFixed1 (λ _, "") 0.25%float = "0.3"
  ∧ JS.toFixed1 (λ _, "") (-0.04)%float = "-0.0"
  ∧ JS.toFixed1 (λ _, "") (0 / 0)%float = "NaN".
Proof. split_and!; reflexivity. Qed.

Example zero_over_zero_is_not_ordered :
  JS.ge (0 / 0)%float 0%float = false ∧ JS.gt (0 / 0)%float 20%float = false
  ∧ JS.lt (0 / 0)%float 10%float = false.
Proof. split_and!; reflexivity. Qed.

(** ** The insight rules append to the list they are given *)

Section InsightFacts.
Variable Number_toString : JS.number → string.

Lemma compare_appends historicalData predictedData attribute :
  appends (compare_insight Number_toString historicalData predictedData attribute).
Proof.
  intros insights; unfold compare_insight, push.
  repeat case_match; simpl; rewrite ?app_nil_r; auto with lia.
Qed.

Lemma trend_appends values timePoints attribute :
  appends (trend_insight values timePoints attribute).
Proof.
  intros insights; unfold trend_insight, push.
  repeat case_match; simpl; auto with lia.
Qed.

Lemma variability_appends values attribute :
  appends (variability_insight Number_toString values attribute).
Proof.
  intros insights; unfold variability_insight, push.
  repeat case_match; simpl; auto with lia.
Qed.

Lemma outlier_appends outliers attribute :
  appends (outlier_insight outliers attribute).
Proof.
  intros insights; unfold outlier_insight, push.
  repeat case_match; simpl; rewrite ?app_nil_r; auto with lia.
Qed.

Lemma variability_one values attribute :
  length (variability_insight Number_toString values attribute []) = 1%nat.
Proof. unfold variability_insight, push. by repeat case_match. Qed.

Lemma length_zero_nil {A} (l : list A) : (length l =? 0)%nat = true ↔ l = [].
Proof. destruct l; simpl; split; intros; done. Qed.

Lemma generateInsights_segments data attribute dataTypeFilter :
  let validData := filter (has attribute) data in
  validData ≠ [] →
  generateInsights Number_toString data attribute dataTypeFilter
  = delta_segment Number_toString validData attribute dataTypeFilter
    ++ trend_segment validData attribute
    ++ variability_segment Number_toString validData attribute
    ++ outlier_segment validData attribute.
Proof.
  intros validData Hvalid; unfold generateInsights.
  destruct (length data =? 0)%nat eqn:Hdata.
  { apply length_zero_nil in Hdata; subst data. by destruct Hvalid. }
  fold validData.
  destruct (length validData =? 0)%nat eqn:Hlen.
  { apply length_zero_nil in Hlen. by destruct Hvalid. }
  rewrite (proj1 (outlier_appends _ _ _)).
  rewrite (proj1 (variability_appends _ _ _)).
  unfold delta_segment, trend_segment, variability_segment, outlier_segment.
  destruct (1 <? length validData)%nat.
  - rewrite (proj1 (trend_appends _ _ _ _)).
    destruct dataTypeFilter; by rewrite <- ?app_assoc.
  - destruct dataTypeFilter; by rewrite <- ?app_assoc, ?app_nil_r.
Qed.

Lemma segment_lengths validData attribute dataTypeFilter :
  (length (delta_segment Number_toString validData attribute dataTypeFilter) ≤ 1
   ∧ length (trend_segment validData attribute) ≤ 1
   ∧ length (variability_segment Number_toString validData attribute) = 1
   ∧ length (outlier_segment validData attribute) ≤ 1)%nat.
Proof.
  split_and!.
  - unfold delta_segment; destruct dataTypeFilter; simpl; [|lia].
    apply (compare_appends _ _ _ []).
  - unfold trend_segment; case_match; simpl; [|lia].
    apply (trend_appends _ _ _ []).
  - apply variability_one.
  - apply (outlier_appends _ _ []).
Qed.

(** Means only read the attribute values. *)
Lemma mean_of_values attribute rows :
  mean_of attribute rows
  = (fold_left (λ a b, a + b) (map (λ d, JS.as_number (prop d attribute)) rows) 0
     / JS.of_nat (length rows))%float.
Proof.
  unfold mean_of; f_equal.
  generalize 0%float; induction rows as [|d rows IH]; intros acc; simpl; [done|].
  apply IH.
Qed.

Lemma mean_of_given attribute rows vs :
  map (λ d, prop d attribute) rows = vs →
  mean_of attribute rows
  = (fold_left (λ a b, a + b) (map JS.as_number vs) 0
     / JS.of_nat (length vs))%float.
Proof.
  intros <-. rewrite mean_of_values, length_map, map_map. done.
Qed.

End InsightFacts.

(** ** Historical-versus-predicted change *)

Lemma positive_length {A} (l : list A) : (0 <? length l)%nat = true ↔ l ≠ [].
Proof. destruct l; simpl; split; intros; done. Qed.

(** [changePercent] of the metrics, by cases on the two source subsets. *)
Lemma metrics_changePercent (filteredData : list CombinedData)
    (attribute : AttributeKey) (dateRange : App.DateRange) :
  let historicalData := filter (λ d, dataType d = Historical) filteredData in
  let predictedData := filter (λ d, dataType d = Predicted) filteredData in
  App.changePercent (App.metrics filteredData attribute dateRange)
  = if decide (historicalData ≠ [] ∧ predictedData ≠ [])
    then Some (change_percent (mean_of attribute historicalData)
                 (mean_of attribute predictedData))
    else None.
Proof.
  intros historicalData predictedData. unfold App.metrics, App.summary.
  destruct (length filteredData =? 0)%nat eqn:Hlen.
  - apply length_zero_nil in Hlen; subst filteredData. reflexivity.
  - cbn [App.changePercent]. fold historicalData predictedData.
    destruct (0 <? length historicalData)%nat eqn:Hh;
      destruct (0 <? length predictedData)%nat eqn:Hp; simpl;
      case_decide as H; try done.
    + destruct H; split; by apply positive_length.
    + destruct H as [_ H]. apply positive_length in H. congruence.
    + destruct H as [H _]. apply positive_length in H. congruence.
    + destruct H as [H _]. apply positive_length in H. congruence.
Qed.

(** C3: the metrics' [changePercent] is a number exactly when the working
    set has records of both sources, and is then the relative difference of
    the two means times 100; with either source missing it is [undefined],
    which is neither 0 nor NaN, and the insight generator pushes no
    comparison either. *)
Theorem changePercent_defined_iff_both_sources
    (filteredData : list CombinedData) (attribute : AttributeKey)
    (dateRange : App.DateRange) :
  let historicalData := filter (λ d, dataType d = Historical) filteredData in
  let predictedData := filter (λ d, dataType d = Predicted) filteredData in
  let changePercent := App.changePercent (App.metrics filteredData attribute dateRange) in
  (is_Some changePercent ↔ historicalData ≠ [] ∧ predictedData ≠ [])
  ∧ (historicalData ≠ [] ∧ predictedData ≠ [] →
     changePercent
     = Some ((mean_of attribute predictedData - mean_of attribute historicalData)
             / mean_of attribute historicalData * 100)%float)
  ∧ (historicalData = [] ∨ predictedData = [] →
     changePercent = None ∧ changePercent ≠ Some 0%float
     ∧ changePercent ≠ Some JS.NaN
     ∧ ∀ Number_toString insights,
         compare_insight Number_toString historicalData predictedData attribute
           insights = insights).
Proof.
  intros historicalData predictedData changePercent.
  pose proof (metrics_changePercent filteredData attribute dateRange) as Hcp.
  cbv zeta in Hcp. fold historicalData predictedData changePercent in Hcp.
  split_and!.
  - rewrite Hcp. case_decide as H; split; done.
  - intros H. rewrite Hcp. by rewrite decide_True.
  - intros H. rewrite Hcp. rewrite decide_False; [|intros [? ?]; by destruct H].
    split_and!; try done.
    intros Number_toString insights. unfold compare_insight.
    destruct H as [-> | ->]; simpl; [done|].
    by rewrite andb_false_r.
Qed.

Lemma changePercent_witness :
  App.changePercent
    (App.metrics scenario KStressIndex {| App.start := Some 0; App.end_ := Some 0 |})
  = Some 60%float
  ∧ App.changePercent
      (App.metrics [rec Historical 40] KStressIndex
         {| App.start := Some 0; App.end_ := Some 0 |})
    = None.
Proof.
  split.
  - refine (proj1 (proj2 (changePercent_defined_iff_both_sources
                            scenario KStressIndex _)) _).
    split; discriminate.
  - refine (proj1 (proj2 (proj2 (changePercent_defined_iff_both_sources
                                   [rec Historical 40] KStressIndex _)) _)).
    right; reflexivity.
Defined.

(** ** Order of the insight rules *)

Lemma filter_all {A} (P : A → Prop) `{!∀ x, Decision (P x)} (l : list A) :
  Forall P l → filter P l = l.
Proof.
  induction 1 as [|x l Hx _ IH]; [done|].
  by rewrite filter_cons_True, IH.
Qed.

(** C4: the rules run in the order delta, trend, variability, outliers,
    each adding at most one insight after those already pushed; and on
    three historical stress values 40, 50, 60 with three predicted ones
    70, 80, 90 the change is 60 percent and the first insight is the
    warning announcing an increase by 60.0%. *)
Theorem insights_follow_rule_order (Number_toString : JS.number → string) :
  (∀ data attribute dataTypeFilter,
     let validData := filter (has attribute) data in
     validData ≠ [] →
     generateInsights Number_toString data attribute dataTypeFilter
     = delta_segment Number_toString validData attribute dataTypeFilter
       ++ trend_segment validData attribute
       ++ variability_segment Number_toString validData attribute
       ++ outlier_segment validData attribute
     ∧ (length (delta_segment Number_toString validData attribute dataTypeFilter) ≤ 1
        ∧ length (trend_segment validData attribute) ≤ 1
        ∧ length (variability_segment Number_toString validData attribute) = 1
        ∧ length (outlier_segment validData attribute) ≤ 1)%nat)
  ∧ (∀ data dateRange,
       map StressIndex (filter (λ d, dataType d = Historical) data)
       = [Some 40; Some 50; Some 60]%float →
       map StressIndex (filter (λ d, dataType d = Predicted) data)
       = [Some 70; Some 80; Some 90]%float →
       App.changePercent (App.metrics data KStressIndex dateRange) = Some 60%float
       ∧ ∃ first rest,
           generateInsights Number_toString data KStressIndex Both = first :: rest
           ∧ type first = warning
           ∧ message first
             = "StressIndex is projected to increase by 60.0%. Preventive measures recommended."
           ∧ contains "increase by 60.0%" (message first) = true).
Proof.
  split.
  - intros data attribute dataTypeFilter validData Hvalid. split.
    + by apply generateInsights_segments.
    + apply segment_lengths.
  - intros data dateRange Hh Hp.
    set (historicalData := filter (λ d, dataType d = Historical) data) in *.
    set (predictedData := filter (λ d, dataType d = Predicted) data) in *.
    assert (Hmh : mean_of KStressIndex historicalData = 50%float).
    { by rewrite (mean_of_given KStressIndex _ _ Hh). }
    assert (Hmp : mean_of KStressIndex predictedData = 80%float).
    { by rewrite (mean_of_given KStressIndex _ _ Hp). }
    assert (Hlh : length historicalData = 3%nat).
    { by rewrite <- (length_map StressIndex), Hh. }
    assert (Hlp : length predictedData = 3%nat).
    { by rewrite <- (length_map StressIndex), Hp. }
    assert (Hall : Forall (has KStressIndex) data).
    { apply Forall_forall; intros d Hd. unfold has; simpl.
      destruct (dataType d) eqn:Ht.
      - assert (Hin : d ∈ historicalData) by (by apply list_elem_of_filter).
        apply (list_elem_of_fmap_2 StressIndex) in Hin.
        change (StressIndex <$> historicalData) with (map StressIndex historicalData) in Hin.
        rewrite Hh, !elem_of_cons, elem_of_nil in Hin.
        destruct Hin as [->|[->|[->|[]]]]; by eexists.
      - assert (Hin : d ∈ predictedData) by (by apply list_elem_of_filter).
        apply (list_elem_of_fmap_2 StressIndex) in Hin.
        change (StressIndex <$> predictedData) with (map StressIndex predictedData) in Hin.
        rewrite Hp, !elem_of_cons, elem_of_nil in Hin.
        destruct Hin as [->|[->|[->|[]]]]; by eexists. }
    split.
    + rewrite metrics_changePercent. fold historicalData predictedData.
      rewrite decide_True; [by rewrite Hmh, Hmp|].
      split; intros Hnil; by rewrite Hnil in *.
    + assert (Hvalid : filter (has KStressIndex) data ≠ []).
      { rewrite filter_all by done. intros ->. done. }
      rewrite generateInsights_segments by done.
      rewrite filter_all by done. unfold delta_segment.
      fold historicalData predictedData. unfold compare_insight.
      rewrite Hlh, Hlp, Hmh, Hmp. simpl. eexists _, _. split; [reflexivity|].
      split_and!; reflexivity.
Qed.

Lemma insights_order_witness :
  ∃ first rest,
    generateInsights (λ _, "") scenario KStressIndex Both = first :: rest
    ∧ type first = warning
    ∧ contains "increase by 60.0%" (message first) = true.
Proof.
  destruct (proj2 (insights_follow_rule_order (λ _, ""))
              scenario {| App.start := Some 0; App.end_ := Some 0 |}
              eq_refl eq_refl) as (_ & first & rest & Hgen & Htype & _ & Hmsg).
  exists first, rest. split; [exact Hgen|]. split; [exact Htype|exact Hmsg].
Defined.

(** ** Empty working set *)

(** C5: on the empty working set the metrics are all zero with
    [changePercent] undefined, there is no insight, no histogram bin and no
    quartile summary; each computation is a total function, so none of them
    fails. *)
Theorem empty_working_set (Number_toString : JS.number → string)
    (attribute : AttributeKey) (dataTypeFilter : DataTypeFilter)
    (dateRange : App.DateRange) :
  App.filteredData [] dateRange attribute dataTypeFilter = []
  ∧ App.metrics [] attribute dateRange
    = {| App.average := 0; App.max := 0; App.min := 0;
         App.totalRecords := 0; App.historicalRecords := 0;
         App.predictedRecords := 0; App.dateSpan := 0;
         App.changePercent := None |}
  ∧ generateInsights Number_toString [] attribute dataTypeFilter = []
  ∧ DistributionCharts.createHistogramData Number_toString [] attribute = []
  ∧ DistributionCharts.createBoxPlotData [] attribute dataTypeFilter = [].
Proof.
  split_and!; try reflexivity.
  unfold DistributionCharts.createBoxPlotData, DistributionCharts.box_entries; simpl.
  by repeat case_decide.
Qed.

(** ** Number of insights *)

Section Counting.
Variable Number_toString : JS.number → string.

Lemma delta_not_variability validData attribute dataTypeFilter :
  List.filter is_variability
    (delta_segment Number_toString validData attribute dataTypeFilter) = [].
Proof.
  unfold delta_segment, compare_insight, push.
  destruct dataTypeFilter; [|done].
  repeat case_match; try done; by destruct attribute.
Qed.

Lemma trend_not_variability validData attribute :
  List.filter is_variability (trend_segment validData attribute) = [].
Proof.
  unfold trend_segment, trend_insight, push.
  repeat case_match; try done.
Qed.

Lemma outlier_not_variability validData attribute :
  List.filter is_variability (outlier_segment validData attribute) = [].
Proof.
  unfold outlier_segment, outlier_insight, push.
  repeat case_match; try done.
Qed.

Lemma variability_is_variability validData attribute :
  List.filter is_variability
    (variability_segment Number_toString validData attribute)
  = variability_segment Number_toString validData attribute.
Proof.
  unfold variability_segment, variability_insight, push.
  repeat case_match; try done.
Qed.
End Counting.

(** C10: when the attribute is present on some record, exactly one of the
    returned insights comes from the variability rule, whatever the mean
    is, and between one and four insights are returned. *)
Theorem exactly_one_variability_insight (Number_toString : JS.number → string)
    (data : list CombinedData) (attribute : AttributeKey)
    (dataTypeFilter : DataTypeFilter) :
  (∃ d, d ∈ data ∧ has attribute d) →
  let insights := generateInsights Number_toString data attribute dataTypeFilter in
  length (List.filter is_variability insights) = 1%nat
  ∧ (1 ≤ length insights ≤ 4)%nat.
Proof.
  intros (d & Hd & Hhas) insights.
  assert (Hvalid : filter (has attribute) data ≠ []).
  { intros Hnil. eapply filter_nil_not_elem_of; eauto. }
  unfold insights. rewrite generateInsights_segments by done.
  pose proof (segment_lengths Number_toString
                (filter (has attribute) data) attribute dataTypeFilter)
    as (Hd1 & Ht1 & Hv1 & Ho1).
  split.
  - rewrite !List.filter_app, delta_not_variability, trend_not_variability,
      outlier_not_variability, variability_is_variability.
    simpl. rewrite app_nil_r. done.
  - rewrite !length_app. lia.
Qed.

Lemma exactly_one_variability_witness :
  length (List.filter is_variability
            (generateInsights (λ _, "") scenario KStressIndex Both)) = 1%nat.
Proof.
  refine (proj1 (exactly_one_variability_insight (λ _, "") scenario
                   KStressIndex Both _)).
  exists (rec Historical 40). split; [left|by eexists].
Defined.

(** Four equal values have a coefficient of variation of 0, reported as
    low variability; two zeros have none (0/0), reported as moderate. *)
Example variability_of_degenerate_values :
  map (λ i, (type i, message i))
    (variability_insight (λ _, "") [10; 10; 10; 10]%float KStressIndex [])
  = [(success,
      "Variability: Low variability in StressIndex (CV: 0.0%). Values are relatively consistent.")]
  ∧ map (λ i, (type i, message i))
      (variability_insight (λ _, "") [0; 0]%float KStressIndex [])
    = [(info, "Variability: Moderate variability in StressIndex (CV: NaN%).")].
Proof. split; reflexivity. Qed.

(** ** Finite numbers *)

(** The specification of binary64 operations that the standard library
    gives for primitive floats settles the cases used below. *)
Lemma finite_cases v :
  PrimFloat.is_finite v = true →
  (∃ s, Prim2SF v = S754_zero s) ∨ (∃ s m e, Prim2SF v = S754_finite s m e).
Proof.
  unfold PrimFloat.is_finite, PrimFloat.is_nan, PrimFloat.is_infinity.
  rewrite !FloatAxioms.eqb_spec, abs_spec.
  change (Prim2SF infinity) with (S754_infinity false).
  destruct (Prim2SF v) as [s| s | |s m e]; simpl; eauto.
  - by destruct s.
  - done.
Qed.

Lemma SFcompare_refl s m e :
  SFcompare (S754_finite s m e) (S754_finite s m e) = Some Eq.
Proof.
  simpl. rewrite Z.compare_refl.
  assert (H : Pos.compare_cont Eq m m = Eq) by apply Pos.compare_cont_refl.
  rewrite H. by destruct s.
Qed.

Lemma sub_self v : PrimFloat.is_finite v = true → (v - v)%float = 0%float.
Proof.
  intros Hv. apply Prim2SF_inj. rewrite sub_spec.
  change (Prim2SF 0) with (S754_zero false).
  destruct (finite_cases v Hv) as [[s ->]|(s & m & e & ->)].
  - by destruct s.
  - unfold SF64sub, SFsub. rewrite Z.sub_diag. reflexivity.
Qed.

Lemma ltb_irrefl v : PrimFloat.is_finite v = true → (v <? v)%float = false.
Proof.
  intros Hv. rewrite ltb_spec. unfold SFltb.
  destruct (finite_cases v Hv) as [[s ->]|(s & m & e & ->)]; [done|].
  by rewrite SFcompare_refl.
Qed.

Lemma is_nan_finite v : PrimFloat.is_finite v = true → PrimFloat.is_nan v = false.
Proof.
  unfold PrimFloat.is_finite. intros H%negb_true_iff%orb_false_iff. tauto.
Qed.

Lemma ltb_infinity v : PrimFloat.is_finite v = true → (v <? infinity)%float = true.
Proof.
  intros Hv. rewrite ltb_spec. change (Prim2SF infinity) with (S754_infinity false).
  destruct (finite_cases v Hv) as [[s ->]|(s & m & e & ->)]; done.
Qed.

Lemma neg_infinity_ltb v :
  PrimFloat.is_finite v = true → (- infinity <? v)%float = true.
Proof.
  intros Hv. rewrite ltb_spec. change (Prim2SF (- infinity)) with (S754_infinity true).
  destruct (finite_cases v Hv) as [[s ->]|(s & m & e & ->)]; done.
Qed.

Lemma zero_div_zero_div c : (0 / (0 / c))%float = JS.NaN.
Proof.
  apply Prim2SF_inj. rewrite !div_spec.
  change (Prim2SF 0) with (S754_zero false).
  change (Prim2SF JS.NaN) with S754_nan.
  by destruct (Prim2SF c) as [[]|[]| |[] ? ?].
Qed.

Lemma not_both_zeros v : JS.is_neg_zero v && JS.is_pos_zero v = false.
Proof.
  unfold JS.is_neg_zero, JS.is_pos_zero. by destruct (Prim2SF v) as [[]| | |].
Qed.

Lemma min_step_first v :
  PrimFloat.is_finite v = true → JS.min_step JS.Infinity v = v.
Proof.
  intros Hv. unfold JS.min_step.
  change (PrimFloat.is_nan JS.Infinity) with false.
  change (JS.is_pos_zero JS.Infinity) with false.
  rewrite is_nan_finite, andb_false_r by done.
  unfold JS.Infinity. by rewrite ltb_infinity.
Qed.

Lemma min_step_same v : PrimFloat.is_finite v = true → JS.min_step v v = v.
Proof.
  intros Hv. unfold JS.min_step.
  by rewrite is_nan_finite, not_both_zeros, ltb_irrefl.
Qed.

Lemma max_step_first v :
  PrimFloat.is_finite v = true → JS.max_step (- JS.Infinity)%float v = v.
Proof.
  intros Hv. unfold JS.max_step.
  change (PrimFloat.is_nan (- JS.Infinity)) with false.
  change (JS.is_neg_zero (- JS.Infinity)) with false.
  rewrite is_nan_finite, andb_false_r by done.
  unfold JS.Infinity. by rewrite neg_infinity_ltb.
Qed.

Lemma max_step_same v : PrimFloat.is_finite v = true → JS.max_step v v = v.
Proof.
  intros Hv. unfold JS.max_step.
  rewrite is_nan_finite by done.
  rewrite andb_comm, not_both_zeros. by rewrite ltb_irrefl.
Qed.

Lemma fold_constant (step : JS.number → JS.number → JS.number) v values :
  step v v = v → Forall (λ x, x = v) values → fold_left step values v = v.
Proof.
  intros Hstep. induction 1 as [|x values -> _ IH]; simpl; [done|].
  by rewrite Hstep.
Qed.

Lemma Math_min_constant v values :
  PrimFloat.is_finite v = true → values ≠ [] → Forall (λ x, x = v) values →
  JS.Math_min values = v ∧ JS.Math_max values = v.
Proof.
  intros Hv Hne Hall. destruct Hall as [|x values -> Hall]; [done|].
  unfold JS.Math_min, JS.Math_max; simpl.
  rewrite min_step_first, max_step_first by done.
  split; apply fold_constant; auto using min_step_same, max_step_same.
Qed.

(** ** Ranks and counts on numbers, for up to 10000 values *)

Lemma In_upto k z x : In x (upto k z) ↔ z ≤ x < z + Z.of_nat k.
Proof.
  revert z; induction k as [|k IH]; intros z; simpl; [lia|].
  rewrite IH. lia.
Qed.

Lemma bin_count_checked : forallb bin_count_agrees (upto 10000 1) = true.
Proof. vm_compute. reflexivity. Qed.

Lemma ranks_checked : forallb ranks_agree (upto 10000 1) = true.
Proof. vm_compute. reflexivity. Qed.

Lemma is_integer_index x z :
  is_integer x z = true → JS.index_of x = Some (Z.to_nat z).
Proof.
  unfold is_integer, JS.index_of. destruct (JS.integer_of x) as [y|]; [|done].
  intros ->%Z.eqb_eq. done.
Qed.

Lemma ceil_sqrt_pos n : 1 ≤ n → 1 ≤ ceil_sqrt n.
Proof.
  intros Hn. unfold ceil_sqrt.
  assert (1 ≤ Z.sqrt n) by (change 1 with (Z.sqrt 1) at 1; by apply Z.sqrt_le_mono).
  case_match; lia.
Qed.

Lemma bin_count_length (n : nat) :
  (1 ≤ n ≤ 10000)%nat →
  JS.length_of (JS.Math_min [20%float; JS.Math_ceil (JS.Math_sqrt (JS.of_nat n))])
  = Z.min 20 (ceil_sqrt (Z.of_nat n)).
Proof.
  intros Hn. pose proof bin_count_checked as Hall.
  rewrite forallb_forall in Hall.
  specialize (Hall (Z.of_nat n)). unfold bin_count_agrees in Hall.
  apply Z.eqb_eq, Hall, In_upto. lia.
Qed.

Lemma bin_count_small (n : nat) :
  (1 ≤ n ≤ 10000)%nat →
  JS.ToLength (JS.Math_min [20%float; JS.Math_ceil (JS.Math_sqrt (JS.of_nat n))])
  = Z.to_nat (Z.min 20 (ceil_sqrt (Z.of_nat n))).
Proof. intros Hn. unfold JS.ToLength. by rewrite bin_count_length. Qed.

(** Zero divided by a number that is a length from 1 to 20 is zero. *)
Lemma zero_div_count c :
  1 ≤ JS.length_of c ≤ 20 → (0 / c)%float = 0%float.
Proof.
  intros Hc. apply Prim2SF_inj. rewrite div_spec.
  change (Prim2SF 0) with (S754_zero false).
  unfold JS.length_of in Hc.
  destruct (Prim2SF c) as [[]|[]| |[] m e]; simpl in *; try lia.
  reflexivity.
Qed.

Lemma ranks_small {A} (values : list A) :
  (1 ≤ length values ≤ 10000)%nat →
  let n := JS.of_nat (length values) in
  JS.get values (JS.Math_floor (n * 0.25)%float) = values !! (length values / 4)%nat
  ∧ JS.get values (JS.Math_floor (n * 0.5)%float) = values !! (length values / 2)%nat
  ∧ JS.get values (JS.Math_floor (n * 0.75)%float)
    = values !! (3 * length values / 4)%nat
  ∧ JS.get values (n - 1)%float = last values.
Proof.
  intros Hn n. pose proof ranks_checked as Hall.
  rewrite forallb_forall in Hall.
  specialize (Hall (Z.of_nat (length values))). unfold ranks_agree in Hall.
  rewrite !andb_true_iff in Hall.
  destruct Hall as [[[H1 H2] H3] H4]; [apply In_upto; lia|].
  apply is_integer_index in H1, H2, H3, H4.
  unfold JS.get, n, JS.of_nat. rewrite H1, H2, H3, H4. simpl.
  rewrite last_lookup.
  change 4 with (Z.of_nat 4). change 2 with (Z.of_nat 2).
  rewrite <- !Nat2Z.inj_div, !Nat2Z.id.
  replace (3 * Z.of_nat (length values) / Z.of_nat 4)
    with (Z.of_nat (3 * length values / 4))
    by (rewrite Nat2Z.inj_div, Nat2Z.inj_mul; done).
  rewrite Nat2Z.id.
  replace (Z.to_nat (Z.of_nat (length values) - 1)) with (pred (length values))
    by lia.
  done.
Qed.

(** ** Histogram *)

Section HistogramFacts.
Variable Number_toString : JS.number → string.
Import DistributionCharts.

Lemma assign_length attribute min binWidth binCount bins d :
  length (assign attribute min binWidth binCount bins d) = length bins.
Proof.
  unfold assign. repeat case_match; try done. apply length_alter.
Qed.

Lemma fold_assign_length attribute min binWidth binCount rows bins :
  length (fold_left (assign attribute min binWidth binCount) rows bins)
  = length bins.
Proof.
  revert bins; induction rows as [|d rows IH]; intros bins; simpl; [done|].
  by rewrite IH, assign_length.
Qed.

Lemma createHistogramData_length filteredData attribute :
  filteredData ≠ [] →
  length (createHistogramData Number_toString filteredData attribute)
  = JS.ToLength
      (JS.Math_min [20%float;
                    JS.Math_ceil (JS.Math_sqrt (JS.of_nat (length filteredData)))]).
Proof.
  intros Hne. unfold createHistogramData, fill_bins.
  rewrite length_map.
  destruct (length filteredData =? 0)%nat eqn:Hlen.
  { apply length_zero_nil in Hlen. done. }
  rewrite fold_assign_length, length_map, length_seq.
  unfold bin_count. by rewrite length_map.
Qed.
End HistogramFacts.

(** With all values equal to one finite number the bin width is a zero
    and every bin index is NaN. *)
Lemma bin_index_zero_width v c :
  PrimFloat.is_finite v = true →
  DistributionCharts.bin_index v ((v - v) / c)%float c v = JS.NaN.
Proof.
  intros Hv. unfold DistributionCharts.bin_index.
  rewrite sub_self, zero_div_zero_div by done. reflexivity.
Qed.

Lemma assign_zero_width attribute v c bins d :
  PrimFloat.is_finite v = true → prop d attribute = Some v →
  DistributionCharts.assign attribute v ((v - v) / c)%float c bins d = bins.
Proof.
  intros Hv Hd. unfold DistributionCharts.assign. rewrite Hd. simpl JS.as_number.
  rewrite bin_index_zero_width by done. reflexivity.
Qed.

Lemma fold_assign_zero_width attribute v c rows bins :
  PrimFloat.is_finite v = true →
  Forall (λ d, prop d attribute = Some v) rows →
  fold_left (DistributionCharts.assign attribute v ((v - v) / c)%float c) rows bins
  = bins.
Proof.
  intros Hv. induction 1 as [|d rows Hd _ IH]; simpl; [done|].
  by rewrite assign_zero_width.
Qed.

Lemma createHistogramData_equal_values Number_toString filteredData attribute v :
  PrimFloat.is_finite v = true →
  Forall (λ d, prop d attribute = Some v) filteredData →
  Forall (λ b, DistributionCharts.total b = 0%nat)
    (DistributionCharts.createHistogramData Number_toString filteredData attribute).
Proof.
  intros Hv Hall. unfold DistributionCharts.createHistogramData.
  case_match; [constructor|].
  unfold DistributionCharts.fill_bins.
  destruct (Math_min_constant v
              (map (λ d, JS.as_number (prop d attribute)) filteredData))
    as [-> ->]; [done| |..].
  { by destruct filteredData. }
  { apply Forall_map. eapply Forall_impl; [exact Hall|]. by intros d ->. }
  rewrite fold_assign_zero_width by done.
  apply Forall_map, Forall_forall. done.
Qed.


(** C1, as stated, fails: four equal values give two bins, none of which
    counts any value. *)
Lemma equal_values_not_single_bin :
  flat ≠ []
  ∧ Forall (λ d, prop d KStressIndex = Some 10%float) flat
  ∧ ¬ (∃ b, DistributionCharts.createHistogramData (λ _, "") flat KStressIndex = [b]
            ∧ DistributionCharts.total b = length flat).
Proof.
  split_and!.
  - discriminate.
  - repeat constructor.
  - intros (b & Hb & _). vm_compute in Hb. discriminate.
Qed.

(** C1, amended: for a non-empty working set of [n] values, equal or not,
    the histogram has [min(20, ceil(sqrt(n)))] bins; this is one bin when
    [n] is 1, and up to 10000 values it is the integer
    [min(20, ceil_sqrt n)], with a bin width of 0 when the values are all
    one finite number. *)
Theorem histogram_bin_count (Number_toString : JS.number → string)
    (filteredData : list CombinedData) (attribute : AttributeKey) :
  filteredData ≠ [] →
  let values := map (λ d, JS.as_number (prop d attribute)) filteredData in
  let bins := DistributionCharts.createHistogramData Number_toString
                filteredData attribute in
  length bins
  = JS.ToLength
      (JS.Math_min [20%float;
                    JS.Math_ceil (JS.Math_sqrt (JS.of_nat (length filteredData)))])
  ∧ (length filteredData = 1%nat → length bins = 1%nat)
  ∧ ((length filteredData ≤ 10000)%nat →
     Z.of_nat (length bins) = Z.min 20 (ceil_sqrt (Z.of_nat (length filteredData)))
     ∧ ∀ v, PrimFloat.is_finite v = true →
            Forall (λ d, prop d attribute = Some v) filteredData →
            ((JS.Math_max values - JS.Math_min values)
             / DistributionCharts.bin_count values)%float = 0%float).
Proof.
  intros Hne values bins. unfold bins.
  assert (1 ≤ length filteredData)%nat by (destruct filteredData; simpl; [done|lia]).
  split_and!.
  - by apply createHistogramData_length.
  - intros Hone. rewrite createHistogramData_length, Hone by done. reflexivity.
  - intros Hsmall.
    pose proof (ceil_sqrt_pos (Z.of_nat (length filteredData))).
    split.
    + rewrite createHistogramData_length by done.
      rewrite bin_count_small by lia. lia.
    + intros v Hv Hall.
      destruct (Math_min_constant v values) as [-> ->]; [done| |..].
      { unfold values. by destruct filteredData. }
      { apply Forall_map. eapply Forall_impl; [exact Hall|]. by intros d ->. }
      rewrite sub_self by done. apply zero_div_count.
      unfold DistributionCharts.bin_count, values. rewrite length_map.
      rewrite bin_count_length by lia. lia.
Qed.

Lemma histogram_bin_count_witness :
  length (DistributionCharts.createHistogramData (λ _, "") flat KStressIndex) = 2%nat.
Proof.
  refine (eq_trans (proj1 (histogram_bin_count (λ _, "") flat KStressIndex _)) _).
  - discriminate.
  - reflexivity.
Defined.

(** C2 fails on every non-empty working set whose values are all one
    finite number [v]: the maximum is [v], its bin index is NaN, which the
    range guard rejects, and no bin counts any value; so it is on four
    values 10 and on a single value 5. *)
Theorem histogram_maximum_not_counted (Number_toString : JS.number → string) :
  (∀ filteredData attribute v,
     filteredData ≠ [] →
     PrimFloat.is_finite v = true →
     Forall (λ d, prop d attribute = Some v) filteredData →
     let values := map (λ d, JS.as_number (prop d attribute)) filteredData in
     let binCount := DistributionCharts.bin_count values in
     let binWidth := ((JS.Math_max values - JS.Math_min values) / binCount)%float in
     JS.Math_max values = v
     ∧ DistributionCharts.bin_index (JS.Math_min values) binWidth binCount v = JS.NaN
     ∧ Forall (λ b, DistributionCharts.total b = 0%nat)
         (DistributionCharts.createHistogramData Number_toString filteredData
            attribute))
  ∧ map DistributionCharts.total
      (DistributionCharts.createHistogramData Number_toString flat KStressIndex)
    = [0; 0]%nat
  ∧ map DistributionCharts.total
      (DistributionCharts.createHistogramData Number_toString
         [rec Historical 5] KStressIndex) = [0%nat].
Proof.
  split; [|split; reflexivity].
  intros filteredData attribute v Hne Hv Hall values binCount binWidth.
  destruct (Math_min_constant v values) as [Hmin Hmax]; [done| |..].
  { unfold values. by destruct filteredData. }
  { apply Forall_map. eapply Forall_impl; [exact Hall|]. by intros d ->. }
  split; [done|]. split.
  - unfold binWidth. rewrite Hmin, Hmax. by apply bin_index_zero_width.
  - by apply createHistogramData_equal_values with v.
Qed.

Lemma histogram_maximum_not_counted_witness :
  JS.Math_max (map (λ d, JS.as_number (prop d KStressIndex)) flat) = 10%float
  ∧ Forall (λ b, DistributionCharts.total b = 0%nat)
      (DistributionCharts.createHistogramData (λ _, "") flat KStressIndex).
Proof.
  destruct (proj1 (histogram_maximum_not_counted (λ _, "")) flat KStressIndex
              10%float) as (Hmax & _ & Hbins).
  - discriminate.
  - reflexivity.
  - repeat constructor.
  - split; [exact Hmax|exact Hbins].
Defined.

(** ** Quartiles *)

Section QuartileFacts.
Import DistributionCharts.

Lemma getQuartiles_fields (values : list JS.number) :
  values ≠ [] →
  let n := JS.of_nat (length values) in
  getQuartiles values
  = Some {| min := values !! 0%nat;
            q1 := JS.get values (JS.Math_floor (n * 0.25)%float);
            median := JS.get values (JS.Math_floor (n * 0.5)%float);
            q3 := JS.get values (JS.Math_floor (n * 0.75)%float);
            max := JS.get values (n - 1)%float;
            mean := (fold_left (λ a b, a + b) values 0 / n)%float |}.
Proof.
  intros Hne n. unfold getQuartiles.
  destruct (length values =? 0)%nat eqn:Hlen; [|done].
  apply length_zero_nil in Hlen. done.
Qed.

Lemma createBoxPlotData_entry filteredData attribute dataTypeFilter t q :
  matches t dataTypeFilter →
  getQuartiles (sorted_values filteredData attribute t) = Some q →
  (t, q) ∈ createBoxPlotData filteredData attribute dataTypeFilter.
Proof.
  intros Hm Hq. unfold createBoxPlotData, box_entries, push.
  destruct t.
  - rewrite (decide_True _ _ Hm), Hq.
    repeat case_match; simpl; rewrite ?elem_of_cons; auto.
  - rewrite (decide_True _ _ Hm), Hq.
    repeat case_match; simpl; rewrite ?elem_of_cons; auto.
Qed.
End QuartileFacts.

(** C8: for a source that is selected and has values, the box-plot entry
    is read off the values sorted by [(a, b) => a - b]: first element,
    elements at [floor(n * 0.25)], [floor(n * 0.5)], [floor(n * 0.75)],
    element at [n - 1], and sum over [n]; up to 10000 values these ranks
    are the integers [n / 4], [n / 2], [3 n / 4] and the last position.
    Sorted values 10, 20, 30, 40 give Q1 = 20, median = 30 and Q3 = 40,
    also when the records carry them in the order 30, 10, 40, 20. *)
Theorem quartiles_nearest_rank :
  (∀ filteredData attribute dataTypeFilter t,
     let values := DistributionCharts.sorted_values filteredData attribute t in
     let n := JS.of_nat (length values) in
     matches t dataTypeFilter →
     values ≠ [] →
     ∃ q, (t, q) ∈ DistributionCharts.createBoxPlotData filteredData attribute
                     dataTypeFilter
          ∧ DistributionCharts.getQuartiles values = Some q
          ∧ DistributionCharts.min q = values !! 0%nat
          ∧ DistributionCharts.q1 q = JS.get values (JS.Math_floor (n * 0.25)%float)
          ∧ DistributionCharts.median q = JS.get values (JS.Math_floor (n * 0.5)%float)
          ∧ DistributionCharts.q3 q = JS.get values (JS.Math_floor (n * 0.75)%float)
          ∧ DistributionCharts.max q = JS.get values (n - 1)%float
          ∧ DistributionCharts.mean q
            = (fold_left (λ a b, a + b) values 0 / n)%float
          ∧ ((length values ≤ 10000)%nat →
             DistributionCharts.q1 q = values !! (length values / 4)%nat
             ∧ DistributionCharts.median q = values !! (length values / 2)%nat
             ∧ DistributionCharts.q3 q = values !! (3 * length values / 4)%nat
             ∧ DistributionCharts.max q = last values))
  ∧ DistributionCharts.getQuartiles [10; 20; 30; 40]%float
    = Some {| DistributionCharts.min := Some 10%float;
              DistributionCharts.q1 := Some 20%float;
              DistributionCharts.median := Some 30%float;
              DistributionCharts.q3 := Some 40%float;
              DistributionCharts.max := Some 40%float;
              DistributionCharts.mean := 25%float |}
  ∧ DistributionCharts.createBoxPlotData
      [rec Historical 30; rec Historical 10; rec Historical 40; rec Historical 20]%float
      KStressIndex (Only Historical)
    = [(Historical,
        {| DistributionCharts.min := Some 10%float;
           DistributionCharts.q1 := Some 20%float;
           DistributionCharts.median := Some 30%float;
           DistributionCharts.q3 := Some 40%float;
           DistributionCharts.max := Some 40%float;
           DistributionCharts.mean := 25%float |})].
Proof.
  split; [|split; reflexivity].
  intros filteredData attribute dataTypeFilter t values n Hm Hne.
  pose proof (getQuartiles_fields values Hne) as Hq.
  eexists; split_and!; [|exact Hq|..]; try reflexivity.
  - by apply createBoxPlotData_entry.
  - intros Hsmall. simpl. apply ranks_small.
    destruct values; simpl in *; [done|lia].
Qed.

Lemma quartiles_nearest_rank_witness :
  ∃ q, (Predicted, q) ∈ DistributionCharts.createBoxPlotData scenario KStressIndex Both
       ∧ DistributionCharts.q1 q = Some 70%float
       ∧ DistributionCharts.median q = Some 80%float
       ∧ DistributionCharts.q3 q = Some 90%float.
Proof.
  destruct (proj1 quartiles_nearest_rank scenario KStressIndex Both Predicted)
    as (q & Hin & _ & _ & H1 & H2 & H3 & _).
  - by left.
  - discriminate.
  - exists q. split; [exact Hin|].
    split; [exact (eq_trans H1 eq_refl)|].
    split; [exact (eq_trans H2 eq_refl)|exact (eq_trans H3 eq_refl)].
Defined.

(** ** Timestamps of normalized records *)

Lemma mapM_from_length {St A B} (f : A → nat → State St B) arr start s :
  length (mapM_from f start arr s).1 = length arr.
Proof.
  revert start s; induction arr as [|x arr IH]; intros start s; [done|].
  simpl. unfold mbind, State_bind.
  destruct (f x start s) as [y s1].
  specialize (IH (S start) s1).
  destruct (mapM_from f (S start) arr s1) as [ys s2]. simpl in *. by rewrite IH.
Qed.

(** Each element of the result is the callback's value on the element at
    the same position, at that position's index, in some state. *)
Lemma mapM_from_lookup {St A B} (f : A → nat → State St B) arr start s i x :
  arr !! i = Some x →
  ∃ s', (mapM_from f start arr s).1 !! i = Some (f x (start + i)%nat s').1.
Proof.
  revert start s i; induction arr as [|x0 arr IH]; intros start s i Hi; [done|].
  simpl. unfold mbind, State_bind.
  destruct (f x0 start s) as [y s1] eqn:Hf.
  destruct i as [|i]; simpl in Hi.
  - injection Hi as ->. exists s.
    destruct (mapM_from f (S start) arr s1) as [ys s2]. simpl.
    by rewrite Nat.add_0_r, Hf.
  - destruct (IH (S start) s1 i Hi) as [s' Hs'].
    exists s'. destruct (mapM_from f (S start) arr s1) as [ys s2]. simpl in *.
    by rewrite <- Nat.add_succ_comm.
Qed.

Section NormalizerFacts.
Variable Date_parse : string → option Z.
Variable now_at : nat → Z.

Lemma TimeClip_in_range t :
  - 8640000000000000 ≤ t ≤ 8640000000000000 → TimeClip t = Some t.
Proof. intros Ht. unfold TimeClip. rewrite (proj2 (Z.leb_le _ _)); [done|lia]. Qed.

Lemma synthetic_in_range rows tag index k :
  clock_in_range now_at rows → (index ≤ rows)%nat →
  synthetic now_at tag index k
  = (Some (base_instant tag (now_at k) + Z.of_nat index * 60 * 60 * 1000), S k).
Proof.
  intros Hclock Hindex. destruct (Hclock k) as [Hlo Hhi].
  unfold synthetic, Date_now, mbind, State_bind, mret, State_ret.
  f_equal. destruct tag; simpl.
  - rewrite TimeClip_in_range by lia. simpl.
    rewrite TimeClip_in_range by lia. done.
  - rewrite TimeClip_in_range by lia. done.
Qed.

(** The timestamp of one normalized row. *)
Lemma normalize_datetime rows tag row index k :
  clock_in_range now_at rows → (index ≤ rows)%nat →
  let d := (normalize Date_parse now_at tag row index k).1 in
  dataType d = tag
  ∧ match timestamp_cell row ≫= new_Date Date_parse with
    | Some t => datetime d = Some t
    | None => datetime d
              = Some (base_instant tag (now_at k)
                      + Z.of_nat index * 60 * 60 * 1000)
    end.
Proof.
  intros Hclock Hindex.
  pose proof (λ k, synthetic_in_range rows tag index k Hclock Hindex) as Hsyn.
  unfold normalize, timestamp_cell.
  destruct (truthy (column row "datetime")); [|
    destruct (truthy (column row "date")); [|
      destruct (truthy (column row "timestamp"))]].
  1-3: cbv [mbind State_bind mret State_ret option_bind];
       match goal with |- context [new_Date ?p ?v] =>
         destruct (new_Date p v) as [t|] eqn:Hnew end;
       rewrite ?Hsyn; done.
  cbv [mbind State_bind mret State_ret option_bind].
  rewrite Hsyn. done.
Qed.

Lemma processPatientData_lookup rawData tag k0 index row :
  clock_in_range now_at (length rawData) →
  rawData !! index = Some row →
  ∃ d k, (processPatientData Date_parse now_at rawData tag k0).1 !! index
         = Some d
    ∧ dataType d = tag
    ∧ match timestamp_cell row ≫= new_Date Date_parse with
      | Some t => datetime d = Some t
      | None => datetime d
                = Some (base_instant tag (now_at k)
                        + Z.of_nat index * 60 * 60 * 1000)
      end.
Proof.
  intros Hclock Hrow. unfold processPatientData.
  destruct (mapM_from_lookup (normalize Date_parse now_at tag)
              rawData 0 k0 index row Hrow) as [k Hk].
  eexists _, k. split; [exact Hk|].
  apply (normalize_datetime (length rawData)); [done|].
  apply lookup_lt_Some in Hrow. simpl. lia.
Qed.

Lemma processPatientData_valid rawData tag k0 :
  clock_in_range now_at (length rawData) →
  Forall (λ d, is_Some (datetime d) ∧ dataType d = tag)
    (processPatientData Date_parse now_at rawData tag k0).1.
Proof.
  intros Hclock. apply Forall_lookup. intros index d Hd.
  assert (Hlt : (index < length rawData)%nat).
  { apply lookup_lt_Some in Hd. unfold processPatientData in Hd.
    by rewrite mapM_from_length in Hd. }
  destruct (lookup_lt_is_Some_2 _ _ Hlt) as [row Hrow].
  destruct (processPatientData_lookup rawData tag k0 index row Hclock Hrow)
    as (d' & k & Hd' & Ht & Hdt).
  rewrite Hd in Hd'. injection Hd' as <-. split; [|done].
  destruct (timestamp_cell row ≫= new_Date Date_parse); by eexists.
Qed.
End NormalizerFacts.

(** C6: with the clock and the row count within the range of [Date],
    every normalized record has a valid timestamp: the parsed value of the
    first truthy timestamp cell when it parses, and otherwise the base
    instant of the source, read off the clock, plus the row's index in
    hours. *)
Theorem timestamps_always_valid (Date_parse : string → option Z)
    (now_at : nat → Z) (rawData : list (gmap string scalar)) (tag : DataType)
    (k0 : nat) :
  clock_in_range now_at (length rawData) →
  let records := (processPatientData Date_parse now_at rawData tag k0).1 in
  length records = length rawData
  ∧ Forall (λ d, is_Some (datetime d) ∧ dataType d = tag) records
  ∧ ∀ index row,
      rawData !! index = Some row →
      ∃ d, records !! index = Some d
        ∧ match timestamp_cell row ≫= new_Date Date_parse with
          | Some t => datetime d = Some t
          | None => ∃ k, datetime d
                         = Some (base_instant tag (now_at k)
                                 + Z.of_nat index * 60 * 60 * 1000)
          end.
Proof.
  intros Hclock records. split_and!.
  - apply mapM_from_length.
  - by apply processPatientData_valid.
  - intros index row Hrow.
    destruct (processPatientData_lookup Date_parse now_at rawData tag k0
                index row Hclock Hrow) as (d & k & Hd & _ & Hdt).
    exists d. split; [done|].
    destruct (timestamp_cell row ≫= new_Date Date_parse); [done|by exists k].
Qed.

Lemma sample_clock_in_range rows :
  (rows ≤ 1000)%nat → clock_in_range sample_clock rows.
Proof. intros Hrows k. unfold sample_clock. lia. Qed.

Lemma timestamps_always_valid_witness :
  map datetime (processPatientData parse_iso sample_clock sample_rows Historical 0%nat).1
  = [Some 1704067200000; Some 1784451600000; Some 1784455200001]
  ∧ Forall (λ d, is_Some (datetime d) ∧ dataType d = Historical)
      (processPatientData parse_iso sample_clock sample_rows Historical 0%nat).1.
Proof.
  split; [reflexivity|].
  refine (proj1 (proj2 (timestamps_always_valid parse_iso sample_clock sample_rows
                          Historical 0%nat _))).
  apply sample_clock_in_range. simpl. lia.
Defined.

(** ** The merged series *)

Section SortFacts.
Context {A : Type} (gt : A → A → bool).

Lemma sort_insert_perm x arr : sort_insert gt x arr ≡ₚ x :: arr.
Proof.
  induction arr as [|y arr IH]; simpl; [done|].
  destruct (gt x y); [|done].
  rewrite IH. apply Permutation_swap.
Qed.

Lemma Array_sort_perm arr : Array_sort gt arr ≡ₚ arr.
Proof.
  induction arr as [|x arr IH]; simpl; [done|].
  by rewrite sort_insert_perm, IH.
Qed.

(** Elements that the comparator never orders strictly keep their
    relative order: inserting [x] moves it past elements below it only. *)
Lemma sort_insert_filter (P : A → Prop) `{!∀ x, Decision (P x)} x arr :
  (∀ y, gt x y = true → P x → ¬ P y) →
  filter P (sort_insert gt x arr) = filter P (x :: arr).
Proof.
  intros Hgt. induction arr as [|y arr IH]; simpl; [done|].
  destruct (gt x y) eqn:Hxy; [|done].
  rewrite filter_cons, IH, !filter_cons.
  destruct (decide (P x)) as [Hx|Hx]; [|done].
  destruct (decide (P y)) as [Hy|Hy]; [|done].
  by destruct (Hgt y Hxy Hx).
Qed.

Lemma Array_sort_filter (P : A → Prop) `{!∀ x, Decision (P x)} arr :
  (∀ x y, gt x y = true → P x → ¬ P y) →
  filter P (Array_sort gt arr) = filter P arr.
Proof.
  intros Hgt. induction arr as [|x arr IH]; simpl; [done|].
  rewrite sort_insert_filter by eauto. by rewrite !filter_cons, IH.
Qed.

(** With a comparator that decides a total preorder [le] on the elements
    at hand, the result is sorted. *)
Context (le : A → A → Prop) (ok : A → Prop).
Hypothesis gt_true : ∀ x y, ok x → ok y → gt x y = true → le y x.
Hypothesis gt_false : ∀ x y, ok x → ok y → gt x y = false → le x y.

Lemma sort_insert_HdRel y x arr :
  le y x → HdRel le y arr → HdRel le y (sort_insert gt x arr).
Proof.
  intros Hyx Hhd. destruct arr as [|z arr]; simpl; [by constructor|].
  destruct (gt x z); constructor; [by inversion Hhd|done].
Qed.

Lemma sort_insert_sorted x arr :
  ok x → Forall ok arr → Sorted le arr → Sorted le (sort_insert gt x arr).
Proof.
  intros Hx Hok Hsorted. induction arr as [|y arr IH]; simpl.
  { repeat constructor. }
  inversion Hok as [|? ? Hy Hok']; subst.
  inversion Hsorted as [|? ? Hs Hhd]; subst.
  destruct (gt x y) eqn:Hxy.
  - constructor; [by apply IH|].
    apply sort_insert_HdRel; [by apply gt_true|done].
  - constructor; [done|]. constructor. by apply gt_false.
Qed.

Lemma Array_sort_sorted arr : Forall ok arr → Sorted le (Array_sort gt arr).
Proof.
  induction 1 as [|x arr Hx Hok IH]; simpl; [constructor|].
  apply sort_insert_sorted; [done| |done].
  by rewrite Array_sort_perm.
Qed.
End SortFacts.

Lemma by_time_true x y : by_time x y = true → time_le y x.
Proof.
  unfold by_time, time_le. destruct (datetime x), (datetime y); simpl; try done.
  intros H%Z.ltb_lt. lia.
Qed.

Lemma by_time_false x y :
  is_Some (datetime x) → is_Some (datetime y) → by_time x y = false → time_le x y.
Proof.
  unfold by_time, time_le. intros [tx Hx] [ty Hy]. rewrite Hx, Hy. simpl.
  intros H%Z.ltb_ge. lia.
Qed.

Lemma by_time_same_instant t x y :
  by_time x y = true → datetime x = Some t → datetime y ≠ Some t.
Proof.
  unfold by_time. intros Hgt Hx Hy. rewrite Hx, Hy in Hgt.
  apply Z.ltb_lt in Hgt. lia.
Qed.

(** C7: with the clock and the row counts within the range of [Date], the
    loaded series is the historical records followed by the predicted ones,
    reordered so that timestamps never decrease from one record to the
    next, and the records of any one instant are in their order before the
    sort: historical ones first, then predicted ones. *)
Theorem series_sorted_and_stable (Date_parse : string → option Z)
    (now_at : nat → Z) (historicalRaw predictedRaw : list (gmap string scalar))
    (k0 : nat) :
  clock_in_range now_at (length historicalRaw) →
  clock_in_range now_at (length predictedRaw) →
  let '(historicalData, k1) :=
    processPatientData Date_parse now_at historicalRaw Historical k0 in
  let '(predictedData, k2) :=
    processPatientData Date_parse now_at predictedRaw Predicted k1 in
  let series := (loadCSVData Date_parse now_at historicalRaw predictedRaw k0).1 in
  series = Array_sort by_time (historicalData ++ predictedData)
  ∧ series ≡ₚ historicalData ++ predictedData
  ∧ Sorted time_le series
  ∧ ∀ t, filter (λ d, datetime d = Some t) series
         = filter (λ d, datetime d = Some t) historicalData
           ++ filter (λ d, datetime d = Some t) predictedData.
Proof.
  intros Hh Hp.
  pose proof (processPatientData_valid Date_parse now_at historicalRaw
                Historical k0 Hh) as Hvh.
  unfold loadCSVData, mbind, State_bind, mret, State_ret.
  destruct (processPatientData Date_parse now_at historicalRaw Historical k0)
    as [historicalData k1].
  pose proof (processPatientData_valid Date_parse now_at predictedRaw
                Predicted k1 Hp) as Hvp.
  destruct (processPatientData Date_parse now_at predictedRaw Predicted k1)
    as [predictedData k2].
  simpl in *. split_and!.
  - done.
  - apply Array_sort_perm.
  - apply (Array_sort_sorted by_time time_le (λ d, is_Some (datetime d))).
    + intros x y _ _. apply by_time_true.
    + intros x y. apply by_time_false.
    + apply Forall_app. split; eapply Forall_impl; eauto; by intros ? [? _].
  - intros t. rewrite <- filter_app. apply Array_sort_filter.
    intros x y Hgt. by apply by_time_same_instant.
Qed.

Lemma series_sorted_and_stable_witness :
  map (λ d, (datetime d, dataType d))
    (loadCSVData parse_iso sample_clock sample_rows sample_rows 0%nat).1
  = [(Some 1704067200000, Historical); (Some 1704067200000, Predicted);
     (Some 1784451600000, Historical); (Some 1784455200001, Historical);
     (Some 1800003600002, Predicted); (Some 1800007200003, Predicted)]
  ∧ Sorted time_le (loadCSVData parse_iso sample_clock sample_rows sample_rows 0%nat).1.
Proof.
  split; [reflexivity|].
  pose proof (series_sorted_and_stable parse_iso sample_clock sample_rows
                sample_rows 0%nat) as H.
  destruct (processPatientData parse_iso sample_clock sample_rows Historical 0%nat)
    as [historicalData k1].
  destruct (processPatientData parse_iso sample_clock sample_rows Predicted k1)
    as [predictedData k2].
  refine (proj1 (proj2 (proj2 (H _ _)))); apply sample_clock_in_range; simpl; lia.
Defined.

(** ** Calls leave the arrays they are given as they were *)

Section StoreRules.
Import Mem.

Lemma wp_ret {A} (a : A) h (Q : A → heap → Prop) : Q a h → wp (mret a) h Q.
Proof. done. Qed.

Lemma wp_bind {A B} (m : State heap A) (k : A → State heap B) h Q :
  wp m h (λ a h', wp (k a) h' Q) → wp (m ≫= k) h Q.
Proof. unfold wp, mbind, State_bind. by destruct (m h). Qed.

Lemma wp_read_records arr l h (Q : list CombinedData → heap → Prop) :
  h !! arr = Some (Records l) → Q l h → wp (read_records arr) h Q.
Proof. unfold wp, read_records. by intros ->. Qed.

Lemma wp_read_numbers arr l h (Q : list JS.number → heap → Prop) :
  h !! arr = Some (Numbers l) → Q l h → wp (read_numbers arr) h Q.
Proof. unfold wp, read_numbers. by intros ->. Qed.

Lemma wp_alloc a h (Q : loc → heap → Prop) :
  (∀ ℓ h', h !! ℓ = None → h ⊆ h' → h' !! ℓ = Some a → Q ℓ h') →
  wp (alloc a) h Q.
Proof.
  intros HQ. unfold wp, alloc; simpl.
  assert (Hfresh : h !! fresh (dom h) = None).
  { apply not_elem_of_dom, is_fresh. }
  apply HQ; [done| |by rewrite lookup_insert_eq].
  by apply insert_subseteq.
Qed.

Lemma wp_write arr a h (Q : () → heap → Prop) :
  (∀ h', h' !! arr = Some a → (∀ ℓ, ℓ ≠ arr → h' !! ℓ = h !! ℓ) → Q () h') →
  wp (write arr a) h Q.
Proof.
  intros HQ. unfold wp, write; simpl. apply HQ.
  - by rewrite lookup_insert_eq.
  - intros ℓ Hne. by rewrite lookup_insert_ne.
Qed.

Lemma wp_mono {A} (m : State heap A) h (Q Q' : A → heap → Prop) :
  wp m h Q → (∀ a h', Q a h' → Q' a h') → wp m h Q'.
Proof. unfold wp. auto. Qed.

(** Overwriting an array that [h0] does not have keeps [h0] included. *)
Lemma subseteq_overwrite (h0 h h' : heap) arr :
  h0 !! arr = None → (∀ ℓ, ℓ ≠ arr → h' !! ℓ = h !! ℓ) → h0 ⊆ h → h0 ⊆ h'.
Proof.
  intros Hnone Hother Hsub. apply map_subseteq_spec. intros ℓ a Hℓ.
  rewrite Hother by congruence.
  by eapply lookup_weaken.
Qed.
End StoreRules.

(** One step of a run: the facts about the store are brought forward to
    the store after the step. *)
Ltac after_alloc ℓ Hf Hs :=
  match type of Hs with
  | ?h ⊆ _ =>
      repeat match goal with
        | H : h !! ?ℓ0 = Some _ |- _ =>
            assert (ℓ0 ≠ ℓ) by (intros ->; rewrite Hf in H; discriminate);
            eapply lookup_weaken in H; [|exact Hs]
        | H : ?h0 ⊆ h |- _ =>
            pose proof (lookup_weaken_None _ _ _ Hf H);
            apply (λ H, transitivity H Hs) in H
        end
  end; clear Hf Hs.

Ltac after_write arr h Ho :=
  repeat match goal with
    | H : h !! ?ℓ0 = Some _, Hne : ?ℓ0 ≠ arr |- _ =>
        rewrite <- (Ho ℓ0 Hne) in H
    | H : h !! ?ℓ0 = Some _, Hne : arr ≠ ?ℓ0 |- _ =>
        rewrite <- (Ho ℓ0 (not_eq_sym Hne)) in H
    | H : ?h0 ⊆ h, Hnone : ?h0 !! arr = None |- _ =>
        apply (subseteq_overwrite _ _ _ _ Hnone Ho) in H
    end; clear Ho.

Ltac wp_step :=
  lazymatch goal with
  | |- wp (if ?c then _ else _) _ _ => destruct c eqn:?
  | |- wp (match ?f with Both => _ | Only _ => _ end) _ _ => destruct f
  | |- wp (mret _) _ _ => apply wp_ret
  | |- wp (_ ≫= _) _ _ => apply wp_bind
  | |- wp (Mem.read_records _) _ _ => eapply wp_read_records; [eassumption|]
  | |- wp (Mem.read_numbers _) _ _ => eapply wp_read_numbers; [eassumption|]
  | |- wp (Mem.alloc _) _ _ =>
      let ℓ := fresh "ℓ" in
      let h' := fresh "h" in
      let Hf := fresh "Hf" in
      let Hs := fresh "Hs" in
      let Hn := fresh "Hnew" in
      apply wp_alloc; intros ℓ h' Hf Hs Hn; after_alloc ℓ Hf Hs
  | |- wp (Mem.write ?arr _) ?h _ =>
      let h' := fresh "h" in
      let Hn := fresh "Hnew" in
      let Ho := fresh "Ho" in
      apply wp_write; intros h' Hn Ho; after_write arr h Ho
  | |- wp (Mem.Array_filter _ _) _ _ => unfold Mem.Array_filter
  | |- wp (Mem.Array_map _ _) _ _ => unfold Mem.Array_map
  | |- wp (Mem.Array_imap _ _) _ _ => unfold Mem.Array_imap
  | |- wp (Mem.Array_filter_numbers _ _) _ _ => unfold Mem.Array_filter_numbers
  | |- wp (Mem.Array_sort_in_place _ _) _ _ => unfold Mem.Array_sort_in_place
  end.

Section StoreFacts.
Import Mem.
Variable Number_toString : JS.number → string.

Lemma filteredData_shared h data s dateRange attribute dataTypeFilter :
  h !! data = Some (Records s) →
  wp (Shared.filteredData data dateRange attribute dataTypeFilter) h
    (λ ws h', h' !! ws = Some (Records (App.filteredData s dateRange attribute
                                         dataTypeFilter))
              ∧ h !! ws = None ∧ h ⊆ h').
Proof.
  intros Hdata. assert (Hbase : h ⊆ h) by done.
  unfold Shared.filteredData. repeat wp_step. done.
Qed.

Lemma metrics_shared h ws w attribute dateRange :
  h !! ws = Some (Records w) →
  returns (Shared.metrics ws attribute dateRange) h
    (App.metrics w attribute dateRange).
Proof.
  intros Hws. assert (Hbase : h ⊆ h) by done.
  unfold returns, Shared.metrics, App.metrics. repeat wp_step; done.
Qed.

Lemma generateInsights_shared h ws w attribute dataTypeFilter :
  h !! ws = Some (Records w) →
  returns (Shared.generateInsights Number_toString ws attribute dataTypeFilter) h
    (generateInsights Number_toString w attribute dataTypeFilter).
Proof.
  intros Hws. assert (Hbase : h ⊆ h) by done.
  unfold returns, Shared.generateInsights, generateInsights.
  repeat wp_step; done.
Qed.

Lemma DistributionCharts_shared h ws w attribute dataTypeFilter :
  h !! ws = Some (Records w) →
  returns (Shared.DistributionCharts Number_toString ws attribute dataTypeFilter) h
    (let filteredData := DistributionCharts.filteredData w attribute dataTypeFilter in
     (DistributionCharts.createHistogramData Number_toString filteredData attribute,
      DistributionCharts.createBoxPlotData filteredData attribute dataTypeFilter)).
Proof.
  intros Hws. assert (Hbase : h ⊆ h) by done.
  unfold returns, Shared.DistributionCharts, Shared.createHistogramData,
    Shared.createBoxPlotData, Shared.sorted_values,
    DistributionCharts.filteredData, DistributionCharts.createHistogramData,
    DistributionCharts.createBoxPlotData, DistributionCharts.sorted_values.
  cbv zeta. repeat wp_step; done.
Qed.
End StoreFacts.

(** C9: computing the working set allocates a new array and changes none
    that exists; computed again from the same series and criteria it has
    the same records; and the metrics, the insight generator (whose sort
    acts on an array of values that it allocated itself) and the
    distribution charts return what the functions on values return and
    leave every array that existed before the call, the series and the
    working set among them, with its contents and order. *)
Theorem series_and_working_set_never_mutated (Number_toString : JS.number → string)
    (h : Mem.heap) (series : Mem.loc) (s : list CombinedData)
    (dateRange : App.DateRange) (attribute : AttributeKey)
    (dataTypeFilter : DataTypeFilter) :
  h !! series = Some (Mem.Records s) →
  wp (Shared.filteredData series dateRange attribute dataTypeFilter) h
    (λ ws1 h1,
       h1 !! ws1 = Some (Mem.Records
                           (App.filteredData s dateRange attribute dataTypeFilter))
       ∧ h ⊆ h1
       ∧ wp (Shared.filteredData series dateRange attribute dataTypeFilter) h1
           (λ ws2 h2,
              h2 !! ws2 = Some (Mem.Records
                                  (App.filteredData s dateRange attribute
                                     dataTypeFilter))
              ∧ h2 !! ws1 = h1 !! ws1
              ∧ h1 ⊆ h2))
  ∧ ∀ (h' : Mem.heap) ws w,
      h' !! ws = Some (Mem.Records w) →
      returns (Shared.metrics ws attribute dateRange) h'
        (App.metrics w attribute dateRange)
      ∧ returns (Shared.generateInsights Number_toString ws attribute dataTypeFilter) h'
          (generateInsights Number_toString w attribute dataTypeFilter)
      ∧ returns (Shared.DistributionCharts Number_toString ws attribute
                   dataTypeFilter) h'
          (let filteredData :=
             DistributionCharts.filteredData w attribute dataTypeFilter in
           (DistributionCharts.createHistogramData Number_toString filteredData
              attribute,
            DistributionCharts.createBoxPlotData filteredData attribute
              dataTypeFilter)).
Proof.
  intros Hseries. split.
  - eapply wp_mono;
      [by apply (filteredData_shared h series s dateRange attribute dataTypeFilter)|].
    intros ws1 h1 (Hws1 & _ & Hsub1).
    split; [done|]. split; [done|].
    eapply wp_mono;
      [apply (filteredData_shared h1 series s dateRange attribute dataTypeFilter);
       by eapply lookup_weaken|].
    intros ws2 h2 (Hws2 & _ & Hsub2).
    split; [done|]. split; [|done].
    rewrite Hws1. by eapply lookup_weaken.
  - intros h' ws w Hws. split_and!.
    + by apply metrics_shared.
    + by apply generateInsights_shared.
    + by apply DistributionCharts_shared.
Qed.

Lemma series_and_working_set_witness :
  (Shared.generateInsights (λ _, "") 1%positive KStressIndex Both sample_store).1
  = generateInsights (λ _, "") scenario KStressIndex Both
  ∧ sample_store
    ⊆ (Shared.generateInsights (λ _, "") 1%positive KStressIndex Both sample_store).2.
Proof.
  exact (proj1 (proj2 (proj2 (series_and_working_set_never_mutated (λ _, "")
                                sample_store 1%positive scenario
                                {| App.start := Some 0; App.end_ := Some 0 |}
                                KStressIndex Both eq_refl)
                         sample_store 1%positive scenario eq_refl))).
Defined.
